(** * Rent status and activity feed of [Property] (src/models.py)

    A shallow embedding of [Property.get_rent_status] and
    [Property.get_activity], together with the parts of Python's [datetime],
    [calendar] and [dateutil.relativedelta] the two methods rely on, and the
    Django queries they issue, read as filters over lists of rows. *)

From Stdlib Require Import ZArith List String Bool Lia Permutation Sorted.
From Stdlib Require Import DecimalString.
Import ListNotations.
Open Scope string_scope.
Open Scope list_scope.
Open Scope Z_scope.

(** ** Exceptions and results *)

(** The exceptions the two methods can meet.  [ValueError] and
    [OverflowError] come from [datetime]; the four lookup faults come from
    Django's [Model.objects.get]; [UnboundLocalError] and [AttributeError]
    come from reading the local [contract] in [get_activity]. *)
Inductive exn : Type :=
| ValueError
| OverflowError
| Invoice_DoesNotExist
| Invoice_MultipleObjectsReturned
| InvoiceType_DoesNotExist
| InvoiceType_MultipleObjectsReturned
| LeaseContract_DoesNotExist
| UnboundLocalError
| AttributeError.

Inductive result (A : Type) : Type :=
| Ok (a : A)
| Raise (e : exn).
Arguments Ok {A} a.
Arguments Raise {A} e.

Definition bind {A B : Type} (m : result A) (k : A -> result B) : result B :=
  match m with
  | Ok a => k a
  | Raise e => Raise e
  end.

Declare Scope result_scope.
Delimit Scope result_scope with result.
Notation "x <- m ;; k" := (bind m (fun x => k))
  (at level 61, m at next level, right associativity) : result_scope.
Open Scope result_scope.

Definition returns {A : Type} (m : result A) : Prop := exists a, m = Ok a.

(** ** Calendar dates: [datetime.date] *)

Module Calendar.

Record date : Type := mkdate { year : Z; month : Z; day : Z }.

Definition MINYEAR : Z := 1.
Definition MAXYEAR : Z := 9999.
Definition MAXORDINAL : Z := 3652059.

(** [calendar.isleap] *)
Definition isleap (y : Z) : bool :=
  (y mod 4 =? 0) && (negb (y mod 100 =? 0) || (y mod 400 =? 0)).

(** [calendar.monthrange(y, m)[1]] for a month in 1..12 *)
Definition days_in_month (y m : Z) : Z :=
  if m =? 2 then (if isleap y then 29 else 28)
  else if (m =? 4) || (m =? 6) || (m =? 9) || (m =? 11) then 30
  else 31.

Definition valid_ymd (y m d : Z) : bool :=
  (MINYEAR <=? y) && (y <=? MAXYEAR) &&
  (1 <=? m) && (m <=? 12) &&
  (1 <=? d) && (d <=? days_in_month y m).

Definition valid_date (x : date) : bool := valid_ymd (year x) (month x) (day x).

(** The constructor [date(year, month, day)]: [None] is its [ValueError]. *)
Definition date_new (y m d : Z) : option date :=
  if valid_ymd y m d then Some (mkdate y m d) else None.

(** Dates compare field by field, year first. *)
Definition date_compare (a b : date) : comparison :=
  match year a ?= year b with
  | Eq => match month a ?= month b with
          | Eq => day a ?= day b
          | c => c
          end
  | c => c
  end.

Definition date_ltb (a b : date) : bool :=
  match date_compare a b with Lt => true | _ => false end.
Definition date_leb (a b : date) : bool :=
  match date_compare a b with Gt => false | _ => true end.
Definition date_eqb (a b : date) : bool :=
  match date_compare a b with Eq => true | _ => false end.

(** Proleptic Gregorian ordinals, as in [datetime]. *)
Definition days_before_year (y : Z) : Z :=
  let y1 := y - 1 in y1 * 365 + y1 / 4 - y1 / 100 + y1 / 400.

Fixpoint days_before_month_aux (y : Z) (k : nat) : Z :=
  match k with
  | O => 0
  | S k' => days_before_month_aux y k' + days_in_month y (Z.of_nat k)
  end.

(** Days of the year before the first of month [m]. *)
Definition days_before_month (y m : Z) : Z :=
  days_before_month_aux y (Z.to_nat (m - 1)).

Definition toordinal (x : date) : Z :=
  days_before_year (year x) + days_before_month (year x) (month x) + day x.

Definition DI400Y : Z := 146097.
Definition DI100Y : Z := 36524.
Definition DI4Y : Z := 1461.

(** [date.fromordinal], for an ordinal in 1..MAXORDINAL. *)
Definition fromordinal (n : Z) : date :=
  let n := n - 1 in
  let n400 := n / DI400Y in
  let n := n mod DI400Y in
  let y := n400 * 400 + 1 in
  let n100 := n / DI100Y in
  let n := n mod DI100Y in
  let n4 := n / DI4Y in
  let n := n mod DI4Y in
  let n1 := n / 365 in
  let n := n mod 365 in
  let y := y + n100 * 100 + n4 * 4 + n1 in
  if (n1 =? 4) || (n100 =? 4) then mkdate (y - 1) 12 31
  else
    let m := Z.shiftr (n + 50) 5 in
    let preceding := days_before_month y m in
    if preceding >? n
    then mkdate y (m - 1) (n - (preceding - days_in_month y (m - 1)) + 1)
    else mkdate y m (n - preceding + 1).

(** [timedelta(days=n)]: the day count is limited to nine digits. *)
Definition timedelta_days (n : Z) : result Z :=
  if (-999999999 <=? n) && (n <=? 999999999) then Ok n else Raise OverflowError.

(** [d + timedelta(days=n)] *)
Definition date_add_days (d : date) (n : Z) : result date :=
  let o := toordinal d + n in
  if (0 <? o) && (o <=? MAXORDINAL) then Ok (fromordinal o)
  else Raise OverflowError.

(** [d + relativedelta(months=-1)], which is how [d - relativedelta(months=1)]
    is evaluated: the month before, the day cut down to that month's
    length.  [calendar.monthrange] refuses year 0 with a [ValueError]. *)
Definition sub_one_month (d : date) : result date :=
  let y := if month d - 1 <? 1 then year d - 1 else year d in
  let m := if month d - 1 <? 1 then month d - 1 + 12 else month d - 1 in
  if (MINYEAR <=? y) && (y <=? MAXYEAR)
  then
    match date_new y m (Z.min (days_in_month y m) (day d)) with
    | Some r => Ok r
    | None => Raise ValueError
    end
  else Raise ValueError.

(** [d + relativedelta(day=n)]: the day is replaced by [n] cut down to the
    month's length; [n or d.day] keeps the day when [n] is 0. *)
Definition set_day (d : date) (n : Z) : result date :=
  let wanted := if n =? 0 then day d else n in
  match date_new (year d) (month d)
                 (Z.min (days_in_month (year d) (month d)) wanted) with
  | Some r => Ok r
  | None => Raise ValueError
  end.

End Calendar.
Import Calendar.

(** ** Rows of the record store

    Foreign keys to [UserProfile] and [Property] are kept as primary keys,
    which is what Django compares when two model instances are tested for
    equality; where the code reads through a foreign key ([lease.tenant],
    [invoice.type]) the row is kept in place. *)

Record UserProfile : Type := mkUserProfile {
  up_id : Z;
  email : string;              (* user.user.email *)
  phone1 : option string;
  phone2 : option string
}.

Record Property : Type := mkProperty {
  prop_id : Z;
  owners : list Z
}.

(** Modelled from the spec: contracts.models is not among the sources; the
    fields are those of the spec's data model ("Lease: tenant, property,
    start_date, end_date, rent_due_day, days_grace_period").  The dates are
    [datetime.date] values, as the code compares them with [today]. *)
Record LeaseContract : Type := mkLease {
  lease_id : Z;
  tenant : UserProfile;
  lease_property : Z;
  start_date : date;
  end_date : date;
  rent_due_day : Z;
  days_grace_period : Z
}.

(** Modelled from the spec: contracts.models is not among the sources; the
    spec lists "manager, owner, property, start_date, end_date".
    [get_activity] also reads [contract.created_by] and [contract.assignee],
    which the spec does not list: they are kept as attributes that may be
    absent, [None] making the read an [AttributeError]. *)
Record ManagementContract : Type := mkContract {
  mc_id : Z;
  manager : Z;
  owner : Z;
  mc_property : Z;
  mc_start_date : date;
  mc_end_date : date;
  mc_created_by : option Z;
  mc_assignee : option Z
}.

(** Wall-clock part of a [datetime.datetime]. *)
Record time : Type := mktime { hour : Z; minute : Z; second : Z; microsecond : Z }.

(** A value that is a [datetime.date] or a [datetime.datetime]: the type of
    the fields the code only copies into events and never compares with
    [today].  A date and a datetime are never equal to each other. *)
Inductive stamp : Type :=
| OnDate (d : date)
| AtTime (d : date) (t : time).

(** Modelled from the spec: maintenance.models is not among the sources. *)
Record MaintenanceRequest : Type := mkRequest {
  req_id : Z;
  req_property : Z;
  created_by : Z;
  assignee : option Z;
  req_headline : string;
  creation_date : stamp;
  assigned_date : option date;
  resolution_date : option date
}.

(** Modelled from the spec: unified_messages.models is not among the
    sources.  [sender] and the entries of [recipients] are contact strings
    or NULL; [msg_type_name] is [message.type.name]. *)
Record Message : Type := mkMessage {
  msg_id : Z;
  msg_user_profile : Z;
  msg_property : Z;
  sender : option string;
  recipients : list (option string);
  msg_type_name : string;
  msg_headline : string;
  msg_creation_date : stamp
}.

Record InvoiceType : Type := mkInvoiceType {
  it_id : Z;
  it_name : string
}.

(** Modelled from the spec: finances.models is not among the sources.
    [amount_str] is [str(invoice.amount())]. *)
Record Invoice : Type := mkInvoice {
  inv_id : Z;
  inv_type : InvoiceType;
  payer : Z;
  payee : Z;
  inv_property : Z;
  issued_date : stamp;
  due_date : option date;
  paid_date : option date;
  amount_str : string
}.

(** A snapshot of the tables the two methods query. *)
Record RecordStore : Type := mkStore {
  leases : list LeaseContract;
  mgmt_contracts : list ManagementContract;
  requests : list MaintenanceRequest;
  messages : list Message;
  invoices : list Invoice;
  invoice_types : list InvoiceType
}.

(** [Model.objects.get(...)] over the rows a filter selects. *)
Definition objects_get {A : Type} (rows : list A) (none many : exn) : result A :=
  match rows with
  | [] => Raise none
  | [x] => Ok x
  | _ :: _ :: _ => Raise many
  end.

Definition is_some {A : Type} (o : option A) : bool :=
  match o with Some _ => true | None => false end.

(** ** [Property.get_rent_status] *)

(** Leases in effect on [d]: [start_date__lte=d, end_date__gte=d]. *)
Definition is_active (d : date) (lease : LeaseContract) : bool :=
  date_leb (start_date lease) d && date_leb d (end_date lease).

Definition get_active_leases (st : RecordStore) (self : Property) (today : date)
  : list LeaseContract :=
  filter (fun lease => (lease_property lease =? prop_id self) && is_active today lease)
         (leases st).

(** Lines 114-121: the due date in [today]'s month, the month's last day when
    [date(...)] raises [ValueError]. *)
Definition this_month_due_date (today : date) (lease : LeaseContract) : result date :=
  match date_new (year today) (month today) (rent_due_day lease) with
  | Some d => Ok d
  | None =>
      match date_new (year today) (month today)
                     (days_in_month (year today) (month today)) with
      | Some d => Ok d
      | None => Raise ValueError
      end
  end.

(** Lines 126-131. *)
Definition last_due_date (today this_month : date) (lease : LeaseContract)
  : result date :=
  if date_ltb today this_month then
    last_due <- sub_one_month this_month ;;
    if negb (day last_due =? rent_due_day lease)
    then set_day last_due (rent_due_day lease)
    else Ok last_due
  else Ok this_month.

Definition rent_types (st : RecordStore) : list InvoiceType :=
  filter (fun t => String.eqb (it_name t) "Rent") (invoice_types st).

(** The rows of [Invoice.objects.get(type=rent_type, due_date=last_due,
    payer=lease.tenant)]. *)
Definition rent_invoices (st : RecordStore) (rent_type : InvoiceType)
  (last_due : date) (payer_ : UserProfile) : list Invoice :=
  filter (fun i => (it_id (inv_type i) =? it_id rent_type)
                   && match due_date i with
                      | Some d => date_eqb d last_due
                      | None => false
                      end
                   && (payer i =? up_id payer_))
         (invoices st).

(** What one turn of the loop over the leases does to the method: it
    returns, or it goes on with a new value of [ret]. *)
Inductive flow : Type :=
| Returned (s : string)
| Continue (ret : string).

(** The body of the [for lease in leases] loop, lines 108-148. *)
Definition rent_status_of_lease (st : RecordStore) (today : date)
  (lease : LeaseContract) : result flow :=
  if date_ltb today (start_date lease) then Ok (Returned "NA")
  else
    this_month <- this_month_due_date today lease ;;
    grace_period <- timedelta_days (days_grace_period lease) ;;
    last_due <- last_due_date today this_month lease ;;
    rent_type <- objects_get (rent_types st)
                   InvoiceType_DoesNotExist InvoiceType_MultipleObjectsReturned ;;
    invoice <- objects_get (rent_invoices st rent_type last_due (tenant lease))
                 Invoice_DoesNotExist Invoice_MultipleObjectsReturned ;;
    if is_some (paid_date invoice) then Ok (Continue "Paid")
    else if date_leb last_due today then
      grace_end <- date_add_days last_due grace_period ;;
      if date_leb today grace_end then Ok (Continue "Due") else Ok (Continue "Late")
    else Ok (Continue "Late").

Fixpoint rent_status_loop (st : RecordStore) (today : date)
  (ls : list LeaseContract) (ret : string) : result string :=
  match ls with
  | [] => Ok ret
  | lease :: rest =>
      f <- rent_status_of_lease st today lease ;;
      match f with
      | Returned s => Ok s
      | Continue ret' => rent_status_loop st today rest ret'
      end
  end.

(** [get_rent_status(self, today)].  [now] is what [date.today()] reads on
    line 106: the leases are those in effect on the clock's date, not on the
    [today] argument.  The two [except] clauses turn a missing invoice into
    "!!" and a missing lease into "NA"; every other exception leaves the
    method. *)
Definition get_rent_status (st : RecordStore) (self : Property) (now today : date)
  : result string :=
  match rent_status_loop st today (get_active_leases st self now) "!!" with
  | Raise Invoice_DoesNotExist => Ok "!!"
  | Raise LeaseContract_DoesNotExist => Ok "NA"
  | r => r
  end.

(** ** [Property.get_activity] *)

(** String formatting: ["%s..." % x] puts the pieces one after the other. *)
Notation "a +++ b" := (String.append a b) (at level 60, right associativity).

(** An event of the feed: the six entries [build_event] puts in its dict. *)
Record Event : Type := mkEvent {
  ev_headline : string;
  ev_date : stamp;
  ev_person : Z;
  ev_actionText : string;
  ev_action : string;
  ev_type : string
}.

Definition build_event (headline : string) (date_ : stamp) (person : Z)
  (actionText action type_ : string) : Event :=
  mkEvent headline date_ person actionText action type_.

(** The sort key of line 392: a datetime is cut down to its date. *)
Definition event_day (e : Event) : date :=
  match ev_date e with
  | OnDate d => d
  | AtTime d _ => d
  end.

(** [list.sort(key=..., reverse=True)]: a stable sort, largest key first. *)
Fixpoint insert_desc {A : Type} (key : A -> date) (x : A) (l : list A) : list A :=
  match l with
  | [] => [x]
  | y :: l' => if date_ltb (key x) (key y) then y :: insert_desc key x l' else x :: l
  end.

Definition sort_desc {A : Type} (key : A -> date) (l : list A) : list A :=
  fold_right (insert_desc key) [] l.

(** Run [f] on every row in turn and chain what it appends; the first
    exception ends the run. *)
Fixpoint collect {A B : Type} (f : A -> result (list B)) (l : list A)
  : result (list B) :=
  match l with
  | [] => Ok []
  | x :: rest => ys <- f x ;; zs <- collect f rest ;; Ok (ys ++ zs)
  end.

(** The value a [for] loop leaves in its variable: the last row, or nothing
    bound when there was no row. *)
Fixpoint loop_variable {A : Type} (l : list A) : option A :=
  match l with
  | [] => None
  | [x] => Some x
  | _ :: rest => loop_variable rest
  end.

(** Reading an attribute of the local [contract]. *)
Definition read_contract {A : Type} (contract : option ManagementContract)
  (attr : ManagementContract -> option A) : result A :=
  match contract with
  | None => Raise UnboundLocalError
  | Some c =>
      match attr c with
      | Some v => Ok v
      | None => Raise AttributeError
      end
  end.

(** [d and d <= today] for a nullable date. *)
Definition set_and_reached (d : option date) (today : date) : bool :=
  match d with
  | Some x => date_leb x today
  | None => false
  end.

Definition opt_string_eqb (a b : option string) : bool :=
  match a, b with
  | Some x, Some y => String.eqb x y
  | None, None => true
  | _, _ => false
  end.

(** [Property.get_tenants(today)] *)
Definition get_tenants (st : RecordStore) (self : Property) (today : date)
  : list UserProfile :=
  map tenant
      (filter (fun lease => date_leb (start_date lease) today
                            && date_leb today (end_date lease))
              (filter (fun lease => lease_property lease =? prop_id self) (leases st))).

Section Activity.

(** [unit_manager.helpers.angular_sref(name, args=(id,))], which is not
    among the sources. *)
Variable angular_sref : string -> Z -> string.

(** The order in which Python walks [set(activity)]. *)
Variable set_iter : list Event -> list Event.

(** Lines 215-226, and again 230-241 and 244-255. *)
Definition lease_events (today : date) (ls : list LeaseContract) : list Event :=
  flat_map
    (fun lease =>
       build_event "Lease Started" (OnDate (start_date lease))
                   (up_id (tenant lease)) "View Lease"
                   (angular_sref "lease-detail" (lease_id lease)) "lease"
       :: (if date_leb (end_date lease) today
           then [build_event "Lease Ended" (OnDate (end_date lease))
                             (up_id (tenant lease)) "View Lease"
                             (angular_sref "lease-detail" (lease_id lease)) "lease"]
           else []))
    ls.

(** [LeaseContract.objects.filter(tenant=user, property=self)] *)
Definition leases_of_tenant (st : RecordStore) (self : Property) (user : UserProfile)
  : list LeaseContract :=
  filter (fun lease => (up_id (tenant lease) =? up_id user)
                       && (lease_property lease =? prop_id self))
         (leases st).

(** [LeaseContract.objects.filter(property=self)] *)
Definition leases_of_property (st : RecordStore) (self : Property)
  : list LeaseContract :=
  filter (fun lease => lease_property lease =? prop_id self) (leases st).

(** [LeaseContract.objects.filter(property__manager=user)]: the join through
    the management contracts gives a lease once for every contract that
    makes [user] a manager of the lease's property. *)
Definition leases_managed_by (st : RecordStore) (user : UserProfile)
  : list LeaseContract :=
  flat_map
    (fun lease =>
       map (fun _ => lease)
           (filter (fun c => (mc_property c =? lease_property lease)
                             && (manager c =? up_id user))
                   (mgmt_contracts st)))
    (leases st).

(** [ManagementContract.objects.filter(manager=user, property=self)] *)
Definition contracts_of_manager (st : RecordStore) (self : Property)
  (user : UserProfile) : list ManagementContract :=
  filter (fun c => (manager c =? up_id user) && (mc_property c =? prop_id self))
         (mgmt_contracts st).

(** Lines 260-273. *)
Definition contract_events (today : date) (cs : list ManagementContract)
  : list Event :=
  flat_map
    (fun contract =>
       build_event "Management Started" (OnDate (mc_start_date contract))
                   (owner contract) "View Contract"
                   (angular_sref "mgmt-contract-detail" (mc_id contract))
                   "management"
       :: (if date_leb (mc_end_date contract) today
           then [build_event "Management Ended" (OnDate (mc_end_date contract))
                             (owner contract) "View Contract"
                             (angular_sref "mgmt-contract-detail" (mc_id contract))
                             "management"]
           else []))
    cs.

(** [MaintenanceRequest.objects.filter(assignee=user, property=self)] *)
Definition assigned_requests (st : RecordStore) (self : Property)
  (user : UserProfile) : list MaintenanceRequest :=
  filter (fun r => match assignee r with
                   | Some a => a =? up_id user
                   | None => false
                   end
                   && (req_property r =? prop_id self))
         (requests st).

(** [MaintenanceRequest.objects.filter(created_by=user, property=self)] *)
Definition created_requests (st : RecordStore) (self : Property)
  (user : UserProfile) : list MaintenanceRequest :=
  filter (fun r => (created_by r =? up_id user) && (req_property r =? prop_id self))
         (requests st).

Definition contract_id (contract : option ManagementContract) : result Z :=
  read_contract contract (fun c => Some (mc_id c)).

(** The body of the loop over [assigned_requests], lines 279-305: person and
    link are read off [contract], the variable of the loop before. *)
Definition assigned_request_events (contract : option ManagementContract)
  (today : date) (request : MaintenanceRequest) : result (list Event) :=
  person <- read_contract contract mc_created_by ;;
  cid <- contract_id contract ;;
  let new_ev :=
    build_event ("New Request: " +++ req_headline request) (creation_date request)
                person "View Request"
                (angular_sref "mgmt-contract-detail" cid) "maintenance" in
  closed <-
    (if set_and_reached (resolution_date request) today then
       person <- read_contract contract mc_assignee ;;
       cid <- contract_id contract ;;
       Ok [build_event ("Closed Request: " +++ req_headline request)
                       (creation_date request) person "View Request"
                       (angular_sref "mgmt-contract-detail" cid) "maintenance"]
     else Ok []) ;;
  assigned <-
    match assigned_date request with
    | Some d =>
        if date_leb d today then
          person <- read_contract contract mc_assignee ;;
          cid <- contract_id contract ;;
          Ok [build_event ("Assigned Request: " +++ req_headline request)
                          (OnDate d) person "View Request"
                          (angular_sref "mgmt-contract-detail" cid) "maintenance"]
        else Ok []
    | None => Ok []
    end ;;
  Ok (new_ev :: closed ++ assigned).

(** The body of the loop over [created_requests], lines 310-336: the first
    event is read off the request, the other two still read
    [contract.assignee]. *)
Definition created_request_events (contract : option ManagementContract)
  (today : date) (request : MaintenanceRequest) : result (list Event) :=
  let new_ev :=
    build_event ("New Request: " +++ req_headline request) (creation_date request)
                (created_by request) "View Request"
                (angular_sref "maintenance-detail" (req_id request))
                "maintenance" in
  closed <-
    (if set_and_reached (resolution_date request) today then
       person <- read_contract contract mc_assignee ;;
       Ok [build_event ("Closed Request: " +++ req_headline request)
                       (creation_date request) person "View Request"
                       (angular_sref "maintenance-detail" (req_id request))
                       "maintenance"]
     else Ok []) ;;
  assigned <-
    match assigned_date request with
    | Some d =>
        if date_leb d today then
          person <- read_contract contract mc_assignee ;;
          Ok [build_event ("Assigned Request: " +++ req_headline request)
                          (OnDate d) person "View Request"
                          (angular_sref "maintenance-detail" (req_id request))
                          "maintenance"]
        else Ok []
    | None => Ok []
    end ;;
  Ok (new_ev :: closed ++ assigned).

(** Lines 342-345: the contact values of the user and of the tenants. *)
Definition contact_values (user : UserProfile) (tenants : list UserProfile)
  : list (option string) :=
  [Some (email user); phone1 user; phone2 user]
  ++ map (fun t => Some (email t)) tenants
  ++ map phone1 tenants
  ++ map phone2 (filter (fun t => is_some (phone2 t)) tenants).

(** [Q(sender=x) | Q(recipients=x)] for some [x] among the values, together
    with [property=self, user_profile=user].  A join on [recipients] can
    give a message more than once; [set(activity)] removes the copies. *)
Definition selected_messages (st : RecordStore) (self : Property)
  (user : UserProfile) (values : list (option string)) : list Message :=
  filter (fun m =>
            existsb (fun x => opt_string_eqb (sender m) x
                              || existsb (opt_string_eqb x) (recipients m))
                    values
            && (msg_property m =? prop_id self)
            && (msg_user_profile m =? up_id user))
         (messages st).

(** Lines 340-357; [now] is what [date.today()] reads on line 340. *)
Definition message_events (st : RecordStore) (self : Property)
  (user : UserProfile) (now : date) : list Event :=
  let tenants := get_tenants st self now in
  if (0 <? Z.of_nat (List.length tenants)) then
    map (fun message =>
           build_event (msg_type_name message +++ ": " +++ msg_headline message)
                       (msg_creation_date message) (up_id user) "View"
                       (angular_sref "message-detail" (msg_id message))
                       (msg_type_name message))
        (selected_messages st self user (contact_values user tenants))
  else [].

(** [Invoice.objects.filter(Q(payer=user) | Q(payee=user), property=self)] *)
Definition invoices_of (st : RecordStore) (self : Property) (user : UserProfile)
  : list Invoice :=
  filter (fun i => ((payer i =? up_id user) || (payee i =? up_id user))
                   && (inv_property i =? prop_id self))
         (invoices st).

(** Lines 364-390. *)
Definition invoice_events (user : UserProfile) (today : date) (invs : list Invoice)
  : list Event :=
  flat_map
    (fun invoice =>
       let person := if negb (payer invoice =? up_id user)
                     then payer invoice else payee invoice in
       let link := angular_sref "invoice-detail" (inv_id invoice) in
       let label (what : string) :=
         it_name (inv_type invoice) +++ what +++ amount_str invoice in
       build_event (label " Created: ") (issued_date invoice) person
                   "View Invoice" link "invoice"
       :: (match due_date invoice with
           | Some d =>
               if date_leb d today
               then [build_event (label " Due: ") (OnDate d) person
                                 "View Invoice" link "invoice"]
               else []
           | None => []
           end)
       ++ (match paid_date invoice with
           | Some d =>
               if date_leb d today
               then [build_event (label " Paid: ") (OnDate d) person
                                 "View Invoice" link "invoice"]
               else []
           | None => []
           end))
    invs.

(** The list [activity] as it stands on line 390, before [set] and [sort]. *)
Definition gathered_activity (st : RecordStore) (self : Property)
  (user : UserProfile) (now today : date) : result (list Event) :=
  let tenant_leases := lease_events today (leases_of_tenant st self user) in
  let owner_leases :=
    if existsb (Z.eqb (up_id user)) (owners self)
    then lease_events today (leases_of_property st self) else [] in
  let managed_leases := lease_events today (leases_managed_by st user) in
  let mgmt := contracts_of_manager st self user in
  let contract := loop_variable mgmt in
  assigned <- collect (assigned_request_events contract today)
                      (assigned_requests st self user) ;;
  created <- collect (created_request_events contract today)
                     (created_requests st self user) ;;
  Ok (tenant_leases ++ owner_leases ++ managed_leases
      ++ contract_events today mgmt
      ++ assigned ++ created
      ++ message_events st self user now
      ++ invoice_events user today (invoices_of st self user)).

(** [get_activity(self, user, today)]: lines 391-393 on the gathered list. *)
Definition get_activity (st : RecordStore) (self : Property)
  (user : UserProfile) (now today : date) : result (list Event) :=
  activity <- gathered_activity st self user now today ;;
  Ok (sort_desc event_day (set_iter activity)).

End Activity.

(** One order [set(activity)] can be walked in: first occurrences, in the
    order of the list. *)
Definition stamp_eq_dec (a b : stamp) : {a = b} + {a <> b}.
Proof. repeat decide equality. Defined.

Definition Event_eq_dec (a b : Event) : {a = b} + {a <> b}.
Proof.
  decide equality; try apply string_dec; try apply Z.eq_dec; apply stamp_eq_dec.
Defined.

Fixpoint first_occurrences (l : list Event) (seen : list Event) : list Event :=
  match l with
  | [] => []
  | x :: rest =>
      if in_dec Event_eq_dec x seen then first_occurrences rest seen
      else x :: first_occurrences rest (x :: seen)
  end.

Definition set_in_list_order (l : list Event) : list Event := first_occurrences l [].

(** A printer for links, used where a concrete [angular_sref] is needed. *)
Definition sref_path (name : string) (id : Z) : string :=
  name +++ "/" +++ NilZero.string_of_int (Z.to_int id).

(** ** [Property.get_user_roles] *)

(** [self.managementcontract_set.filter(manager=user_profile,
    start_date__lte=today, end_date__gte=today)] *)
Definition active_contracts_of (st : RecordStore) (self : Property)
  (user_profile : UserProfile) (today : date) : list ManagementContract :=
  filter (fun c => (manager c =? up_id user_profile)
                   && date_leb (mc_start_date c) today
                   && date_leb today (mc_end_date c))
         (filter (fun c => mc_property c =? prop_id self) (mgmt_contracts st)).

(** [self.leasecontract_set.filter(tenant=user_profile,
    start_date__lte=today, end_date__gte=today)] *)
Definition active_leases_of (st : RecordStore) (self : Property)
  (user_profile : UserProfile) (today : date) : list LeaseContract :=
  filter (fun lease => (up_id (tenant lease) =? up_id user_profile)
                       && date_leb (start_date lease) today
                       && date_leb today (end_date lease))
         (filter (fun lease => lease_property lease =? prop_id self) (leases st)).

(** [get_user_roles(self, user_profile, today)], lines 59-77: the roles are
    appended in the order owner, manager, tenant. *)
Definition get_user_roles (st : RecordStore) (self : Property)
  (user_profile : UserProfile) (today : date) : list string :=
  let ret := [] in
  let ret := if existsb (Z.eqb (up_id user_profile)) (owners self)
             then ret ++ ["owner"] else ret in
  let ret := if 0 <? Z.of_nat (List.length (active_contracts_of st self user_profile today))
             then ret ++ ["manager"] else ret in
  let ret := if 0 <? Z.of_nat (List.length (active_leases_of st self user_profile today))
             then ret ++ ["tenant"] else ret in
  ret.

(** ** Notions used in the statements *)

(** [a] may stand before [b] in a list sorted largest key first: the key of
    [a] is not smaller. *)
Definition not_before {A : Type} (key : A -> date) (a b : A) : Prop :=
  date_leb (key b) (key a) = true.

(** The month before the month of [d], as a year and a month. *)
Definition month_before (d : date) : Z * Z :=
  if month d =? 1 then (year d - 1, 12) else (year d, month d - 1).

(** The due day of the month before [d]: [due_day], or that month's last day
    when the month is shorter. *)
Definition reanchored (d : date) (due_day : Z) : date :=
  let (y, m) := month_before d in
  mkdate y m (Z.min (days_in_month y m) due_day).

(** The last due date of a lease on the reference date: lines 114-131. *)
Definition last_due_of (today : date) (lease : LeaseContract) : result date :=
  this_month <- this_month_due_date today lease ;;
  last_due_date today this_month lease.

(** [last_due + grace_period], the last day of grace. *)
Definition grace_end_of (last_due : date) (lease : LeaseContract) : result date :=
  grace_period <- timedelta_days (days_grace_period lease) ;;
  date_add_days last_due grace_period.

(** [last_due <= today <= grace_end] *)
Definition in_grace_window (last_due today grace_end : date) : bool :=
  date_leb last_due today && date_leb today grace_end.

(** What the method answers once the invoice of the last due date is read. *)
Definition status_of_invoice (today last_due : date) (grace_period : Z)
  (invoice : Invoice) : result flow :=
  if is_some (paid_date invoice) then Ok (Continue "Paid")
  else if date_leb last_due today then
    grace_end <- date_add_days last_due grace_period ;;
    if date_leb today grace_end then Ok (Continue "Due") else Ok (Continue "Late")
  else Ok (Continue "Late").

(** Two events with the same six entries. *)
Definition same_fields (a b : Event) : Prop :=
  ev_headline a = ev_headline b /\ ev_date a = ev_date b
  /\ ev_person a = ev_person b /\ ev_actionText a = ev_actionText b
  /\ ev_action a = ev_action b /\ ev_type a = ev_type b.

(** What [get_rent_status] answers when [lease] is the last lease of the
    loop and the turns before it went through. *)
Definition lease_status (st : RecordStore) (today : date) (lease : LeaseContract)
  : result string :=
  match rent_status_of_lease st today lease with
  | Ok (Returned s) => Ok s
  | Ok (Continue ret) => Ok ret
  | Raise Invoice_DoesNotExist => Ok "!!"
  | Raise LeaseContract_DoesNotExist => Ok "NA"
  | Raise e => Raise e
  end.

(** The five answers of [get_rent_status]. *)
Definition rent_status_values : list string := ["Paid"; "Due"; "Late"; "NA"; "!!"].

(** The "Lease Started" and "Lease Ended" events of a lease. *)
Definition lease_started_event (angular_sref : string -> Z -> string)
  (lease : LeaseContract) : Event :=
  build_event "Lease Started" (OnDate (start_date lease)) (up_id (tenant lease))
              "View Lease" (angular_sref "lease-detail" (lease_id lease)) "lease".

Definition lease_ended_event (angular_sref : string -> Z -> string)
  (lease : LeaseContract) : Event :=
  build_event "Lease Ended" (OnDate (end_date lease)) (up_id (tenant lease))
              "View Lease" (angular_sref "lease-detail" (lease_id lease)) "lease".

(** The "New Request" event of a request the user created. *)
Definition new_request_event (angular_sref : string -> Z -> string)
  (request : MaintenanceRequest) : Event :=
  build_event ("New Request: " +++ req_headline request) (creation_date request)
              (created_by request) "View Request"
              (angular_sref "maintenance-detail" (req_id request)) "maintenance".

(** Where an event of the gathered list comes from. *)
Definition lease_source (angular_sref : string -> Z -> string) (today : date)
  (e : Event) : Prop :=
  exists lease,
    e = lease_started_event angular_sref lease
    \/ (date_leb (end_date lease) today = true
        /\ e = lease_ended_event angular_sref lease).

Definition contract_source (angular_sref : string -> Z -> string) (today : date)
  (e : Event) : Prop :=
  exists c,
    e = build_event "Management Started" (OnDate (mc_start_date c)) (owner c)
                    "View Contract" (angular_sref "mgmt-contract-detail" (mc_id c))
                    "management"
    \/ (date_leb (mc_end_date c) today = true
        /\ e = build_event "Management Ended" (OnDate (mc_end_date c)) (owner c)
                           "View Contract"
                           (angular_sref "mgmt-contract-detail" (mc_id c))
                           "management").

Definition request_source (e : Event) : Prop :=
  ev_type e = "maintenance" /\ ev_actionText e = "View Request".

Definition message_source (angular_sref : string -> Z -> string) (st : RecordStore)
  (self : Property) (user : UserProfile) (now : date) (e : Event) : Prop :=
  get_tenants st self now <> []
  /\ exists m, In m (messages st)
               /\ e = build_event (msg_type_name m +++ ": " +++ msg_headline m)
                                  (msg_creation_date m) (up_id user) "View"
                                  (angular_sref "message-detail" (msg_id m))
                                  (msg_type_name m).

Definition invoice_source (st : RecordStore) (self : Property) (user : UserProfile)
  (e : Event) : Prop :=
  exists i, In i (invoices_of st self user)
            /\ ev_actionText e = "View Invoice" /\ ev_type e = "invoice"
            /\ ev_person e = (if negb (payer i =? up_id user) then payer i else payee i).

(** ** Sample rows *)

Module Sample.

Definition alice : UserProfile := mkUserProfile 1 "alice@example.org" (Some "555-0101") None.
Definition bob : UserProfile := mkUserProfile 2 "bob@example.org" (Some "555-0202") None.
Definition house : Property := mkProperty 10 [1].

Definition rent : InvoiceType := mkInvoiceType 1 "Rent".

(** Bob rents the house for 2024, rent due on the 1st, five days of grace. *)
Definition lease_2024 : LeaseContract :=
  mkLease 100 bob 10 (mkdate 2024 1 1) (mkdate 2024 12 31) 1 5.

Definition march_rent (paid : option date) : Invoice :=
  mkInvoice 500 rent 2 1 10 (OnDate (mkdate 2024 2 20))
            (Some (mkdate 2024 3 1)) paid "1200.00".

Definition store_with (ls : list LeaseContract) (invs : list Invoice) : RecordStore :=
  mkStore ls [] [] [] invs [rent].

Definition unpaid_store : RecordStore := store_with [lease_2024] [march_rent None].
Definition paid_store : RecordStore :=
  store_with [lease_2024] [march_rent (Some (mkdate 2024 3 2))].

(** A lease that starts in June 2024. *)
Definition lease_from_june : LeaseContract :=
  mkLease 101 bob 10 (mkdate 2024 6 1) (mkdate 2025 5 31) 1 5.

(** A lease with rent due on the 31st. *)
Definition lease_due_31 : LeaseContract :=
  mkLease 102 bob 10 (mkdate 2023 1 1) (mkdate 2023 12 31) 31 5.

(** A message Bob sent Alice about the house. *)
Definition note : Message :=
  mkMessage 700 1 10 (Some "bob@example.org") [Some "alice@example.org"]
            "email" "Leaky tap" (AtTime (mkdate 2024 3 2) (mktime 9 30 0 0)).

Definition message_store : RecordStore :=
  mkStore [lease_2024] [] [] [note] [] [rent].

(** A request Bob created and that was resolved, nobody managing the house. *)
Definition tap_request : MaintenanceRequest :=
  mkRequest 300 10 2 None "Leaky tap" (AtTime (mkdate 2024 3 2) (mktime 9 45 0 0))
            None (Some (mkdate 2024 3 5)).

(** A request assigned to Alice. *)
Definition roof_request : MaintenanceRequest :=
  mkRequest 301 10 2 (Some 1) "Roof" (OnDate (mkdate 2024 2 1)) None None.

Definition request_store (rs : list MaintenanceRequest) : RecordStore :=
  mkStore [lease_2024] [] rs [] [] [rent].

(** The same house with Bob as its owner: his lease is gathered once for
    the tenant and once for the owner. *)
Definition bobs_house : Property := mkProperty 10 [2].

Definition lease_started : Event :=
  mkEvent "Lease Started" (OnDate (mkdate 2024 1 1)) 2 "View Lease"
          "lease-detail/100" "lease".

Definition rent_created : Event :=
  mkEvent "Rent Created: 1200.00" (OnDate (mkdate 2024 2 20)) 1 "View Invoice"
          "invoice-detail/500" "invoice".

Definition rent_due : Event :=
  mkEvent "Rent Due: 1200.00" (OnDate (mkdate 2024 3 1)) 1 "View Invoice"
          "invoice-detail/500" "invoice".

Definition note_received : Event :=
  mkEvent "email: Leaky tap" (AtTime (mkdate 2024 3 2) (mktime 9 30 0 0)) 1
          "View" "message-detail/700" "email".

(** A lease entered with its dates the wrong way round. *)
Definition lease_inverted : LeaseContract :=
  mkLease 103 bob 10 (mkdate 2024 12 31) (mkdate 2024 1 1) 1 5.

(** Leases with a due day of 0 and of -1. *)
Definition lease_due_0 : LeaseContract :=
  mkLease 104 bob 10 (mkdate 2023 1 1) (mkdate 2024 12 31) 0 5.

Definition lease_due_minus_1 : LeaseContract :=
  mkLease 105 bob 10 (mkdate 2024 1 1) (mkdate 2024 12 31) (-1) 5.

(** Carol shares the house in 2024 and has paid her March rent. *)
Definition carol : UserProfile := mkUserProfile 3 "carol@example.org" None None.

Definition lease_carol : LeaseContract :=
  mkLease 106 carol 10 (mkdate 2024 1 1) (mkdate 2024 12 31) 1 5.

Definition march_rent_carol : Invoice :=
  mkInvoice 501 rent 3 1 10 (OnDate (mkdate 2024 2 20))
            (Some (mkdate 2024 3 1)) (Some (mkdate 2024 3 1)) "900.00".

Definition shared_store : RecordStore :=
  store_with [lease_2024; lease_carol] [march_rent None; march_rent_carol].

(** Alice manages the house for its owner (pk 4) in 2024; the contract has
    neither a [created_by] nor an [assignee] attribute. *)
Definition contract_2024 : ManagementContract :=
  mkContract 200 1 4 10 (mkdate 2024 1 1) (mkdate 2024 12 31) None None.

Definition managed_store : RecordStore :=
  mkStore [lease_2024] [contract_2024] [roof_request] [] [] [rent].

(** A request of Bob that is neither assigned nor resolved. *)
Definition door_request : MaintenanceRequest :=
  mkRequest 302 10 2 None "Door" (OnDate (mkdate 2024 3 1)) None None.

(** Alice also manages the flat (pk 20), which Carol rents. *)
Definition lease_flat : LeaseContract :=
  mkLease 107 carol 20 (mkdate 2024 2 1) (mkdate 2025 1 31) 1 5.

Definition contract_flat : ManagementContract :=
  mkContract 201 1 4 20 (mkdate 2024 1 1) (mkdate 2024 12 31) None None.

Definition flat_store : RecordStore :=
  mkStore [lease_flat] [contract_flat] [] [] [] [rent].

Definition today_0303 : date := mkdate 2024 3 3.
Definition today_0310 : date := mkdate 2024 3 10.

End Sample.

(** * Properties *)

(** ** The order on dates *)

Ltac date_cases :=
  unfold date_leb, date_ltb, date_eqb, date_compare in *;
  repeat match goal with
         | |- context [Z.compare ?x ?y] => destruct (Z.compare_spec x y)
         | H : context [Z.compare ?x ?y] |- _ => destruct (Z.compare_spec x y)
         end;
  try congruence; try lia.

Lemma date_ltb_leb (a b : date) : date_ltb a b = negb (date_leb b a).
Proof. date_cases. Qed.

Lemma date_leb_refl (a : date) : date_leb a a = true.
Proof. date_cases. Qed.

Lemma date_leb_trans (a b c : date) :
  date_leb a b = true -> date_leb b c = true -> date_leb a c = true.
Proof. date_cases. Qed.

Lemma date_leb_total (a b : date) : date_leb a b = true \/ date_leb b a = true.
Proof. date_cases; auto. Qed.

Lemma date_eqb_eq (a b : date) : date_eqb a b = true <-> a = b.
Proof.
  destruct a as [y m d], b as [y' m' d']; split.
  - intros H; date_cases; simpl in *; subst; reflexivity.
  - intros H; injection H as -> -> ->. unfold date_eqb, date_compare; simpl.
    now rewrite !Z.compare_refl.
Qed.

Lemma date_ltb_year (a b : date) : year a < year b -> date_ltb a b = true.
Proof. intros; date_cases. Qed.

Lemma date_ltb_month (a b : date) :
  year a = year b -> month a < month b -> date_ltb a b = true.
Proof. intros; date_cases. Qed.

(** ** The stable descending sort *)

Section SortDesc.

Context {A : Type} (key : A -> date).

Lemma insert_desc_perm (x : A) (l : list A) :
  Permutation (insert_desc key x l) (x :: l).
Proof.
  induction l as [|y l IH]; simpl.
  - apply Permutation_refl.
  - destruct (date_ltb (key x) (key y)).
    + apply perm_trans with (y :: x :: l).
      * now apply perm_skip.
      * apply perm_swap.
    + apply Permutation_refl.
Qed.

Lemma sort_desc_perm (l : list A) : Permutation (sort_desc key l) l.
Proof.
  induction l as [|x l IH]; simpl.
  - apply perm_nil.
  - apply perm_trans with (x :: sort_desc key l).
    + apply insert_desc_perm.
    + now apply perm_skip.
Qed.

Lemma insert_desc_sorted (x : A) (l : list A) :
  StronglySorted (not_before key) l -> StronglySorted (not_before key) (insert_desc key x l).
Proof.
  induction l as [|y l IH]; simpl; intros Hs.
  - constructor; [constructor | constructor].
  - apply StronglySorted_inv in Hs as [Hl Hy].
    destruct (date_ltb (key x) (key y)) eqn:Hlt.
    + constructor; [now apply IH |].
      apply Forall_forall. intros z Hz.
      apply (Permutation_in _ (insert_desc_perm x l)) in Hz.
      destruct Hz as [<- | Hz].
      * unfold not_before. rewrite date_ltb_leb in Hlt.
        destruct (date_leb_total (key x) (key y)) as [H | H]; [exact H |].
        rewrite H in Hlt; discriminate.
      * rewrite Forall_forall in Hy. now apply Hy.
    + assert (Hxy : not_before key x y).
      { unfold not_before. rewrite date_ltb_leb in Hlt.
        now apply negb_false_iff in Hlt. }
      constructor; [constructor; assumption |].
      constructor; [exact Hxy |].
      rewrite Forall_forall in *. intros z Hz.
      unfold not_before in *.
      apply date_leb_trans with (key y); [now apply Hy | exact Hxy].
Qed.

Lemma sort_desc_sorted (l : list A) : StronglySorted (not_before key) (sort_desc key l).
Proof.
  induction l as [|x l IH]; simpl.
  - constructor.
  - now apply insert_desc_sorted.
Qed.

Lemma sort_desc_in (l : list A) (x : A) : In x (sort_desc key l) <-> In x l.
Proof.
  split; apply Permutation_in;
    [apply sort_desc_perm | apply Permutation_sym, sort_desc_perm].
Qed.

Lemma sort_desc_nodup (l : list A) : NoDup l -> NoDup (sort_desc key l).
Proof.
  apply Permutation_NoDup, Permutation_sym, sort_desc_perm.
Qed.

End SortDesc.

(** ** Walking a set *)

Lemma first_occurrences_in (l seen : list Event) (x : Event) :
  In x (first_occurrences l seen) <-> In x l /\ ~ In x seen.
Proof.
  revert seen; induction l as [|y l IH]; intros seen; simpl.
  - tauto.
  - destruct (in_dec Event_eq_dec y seen) as [Hy | Hy].
    + rewrite IH. split.
      * intros [H1 H2]; auto.
      * intros [[-> | H1] H2]; [contradiction | auto].
    + simpl. rewrite IH. simpl. split.
      * intros [-> | [H1 H2]]; [auto |]. split; [auto |].
        intros H; apply H2; auto.
      * intros [[-> | H1] H2]; [auto |].
        destruct (Event_eq_dec y x) as [-> | Hne]; [auto |].
        right. split; [exact H1 |]. intros [H | H]; [congruence | contradiction].
Qed.

Lemma first_occurrences_nodup (l seen : list Event) :
  NoDup (first_occurrences l seen).
Proof.
  revert seen; induction l as [|y l IH]; intros seen; simpl.
  - constructor.
  - destruct (in_dec Event_eq_dec y seen) as [Hy | Hy]; [apply IH |].
    constructor; [| apply IH].
    rewrite first_occurrences_in. intros [_ H]. apply H. now left.
Qed.

Lemma set_in_list_order_nodup (l : list Event) : NoDup (set_in_list_order l).
Proof. apply first_occurrences_nodup. Qed.

Lemma set_in_list_order_in (l : list Event) (x : Event) :
  In x (set_in_list_order l) <-> In x l.
Proof.
  unfold set_in_list_order. rewrite first_occurrences_in. simpl. tauto.
Qed.

(** ** Due dates *)

Lemma days_in_month_bounds (y m : Z) : 28 <= days_in_month y m <= 31.
Proof.
  unfold days_in_month.
  destruct (m =? 2); [destruct (isleap y); lia |].
  destruct ((m =? 4) || (m =? 6) || (m =? 9) || (m =? 11)); lia.
Qed.

Lemma valid_ymd_iff (y m d : Z) :
  valid_ymd y m d = true <->
  (1 <= y <= 9999) /\ (1 <= m <= 12) /\ (1 <= d <= days_in_month y m).
Proof.
  unfold valid_ymd, MINYEAR, MAXYEAR.
  rewrite !andb_true_iff, !Z.leb_le. tauto.
Qed.

Lemma date_new_ok (y m d : Z) :
  1 <= y <= 9999 -> 1 <= m <= 12 -> 1 <= d <= days_in_month y m ->
  date_new y m d = Some (mkdate y m d).
Proof.
  intros Hy Hm Hd. unfold date_new.
  replace (valid_ymd y m d) with true; [reflexivity |].
  symmetry. apply valid_ymd_iff. auto.
Qed.

Lemma date_new_day_out (y m d : Z) :
  d < 1 \/ days_in_month y m < d -> date_new y m d = None.
Proof.
  intros Hd. unfold date_new.
  destruct (valid_ymd y m d) eqn:Hv; [| reflexivity].
  apply valid_ymd_iff in Hv. lia.
Qed.

Lemma this_month_due_date_min (today : date) (lease : LeaseContract) :
  valid_date today = true ->
  1 <= rent_due_day lease ->
  this_month_due_date today lease =
  Ok (mkdate (year today) (month today)
             (Z.min (days_in_month (year today) (month today)) (rent_due_day lease))).
Proof.
  intros Hv H1. apply valid_ymd_iff in Hv as (Hy & Hm & Hd).
  pose proof (days_in_month_bounds (year today) (month today)) as Hb.
  unfold this_month_due_date.
  destruct (Z.lt_ge_cases (days_in_month (year today) (month today))
                          (rent_due_day lease)) as [Hlt | Hge].
  - rewrite date_new_day_out by (right; exact Hlt).
    rewrite date_new_ok by lia. now rewrite Z.min_l by lia.
  - rewrite date_new_ok by lia. now rewrite Z.min_r by lia.
Qed.


Lemma sub_one_month_ok (d : date) :
  valid_date d = true ->
  1 < year d \/ 1 < month d ->
  sub_one_month d =
  Ok (let (y, m) := month_before d in
      mkdate y m (Z.min (days_in_month y m) (day d))).
Proof.
  intros Hv Hprev. apply valid_ymd_iff in Hv as (Hy & Hm & Hd).
  unfold sub_one_month, month_before, MINYEAR, MAXYEAR.
  destruct (month d =? 1) eqn:E1.
  - apply Z.eqb_eq in E1.
    replace (month d - 1 <? 1) with true by (symmetry; apply Z.ltb_lt; lia).
    replace ((1 <=? year d - 1) && (year d - 1 <=? 9999)) with true
      by (symmetry; rewrite andb_true_iff, !Z.leb_le; lia).
    replace (month d - 1 + 12) with 12 by lia.
    pose proof (days_in_month_bounds (year d - 1) 12).
    rewrite date_new_ok by lia. reflexivity.
  - apply Z.eqb_neq in E1.
    replace (month d - 1 <? 1) with false by (symmetry; apply Z.ltb_ge; lia).
    replace ((1 <=? year d) && (year d <=? 9999)) with true
      by (symmetry; rewrite andb_true_iff, !Z.leb_le; lia).
    pose proof (days_in_month_bounds (year d) (month d - 1)).
    rewrite date_new_ok by lia. reflexivity.
Qed.

Lemma month_before_bounds (d : date) :
  valid_date d = true ->
  1 < year d \/ 1 < month d ->
  1 <= fst (month_before d) <= 9999 /\ 1 <= snd (month_before d) <= 12.
Proof.
  intros Hv Hprev. apply valid_ymd_iff in Hv as (Hy & Hm & Hd).
  unfold month_before. destruct (month d =? 1) eqn:E1; simpl.
  - apply Z.eqb_eq in E1. lia.
  - apply Z.eqb_neq in E1. lia.
Qed.

(** C6. The last due date: when the reference date is before this month's
    due date (and a month before it exists in the calendar) it is the due
    day of the month before, cut down to that month's last day when the
    month is shorter; otherwise it is this month's due date. *)
Theorem last_due_date_reanchored (today this_month : date) (lease : LeaseContract) :
  valid_date today = true ->
  1 <= rent_due_day lease ->
  this_month_due_date today lease = Ok this_month ->
  (date_ltb today this_month = true ->
   1 < year this_month \/ 1 < month this_month ->
   last_due_date today this_month lease =
   Ok (reanchored this_month (rent_due_day lease)))
  /\ (date_ltb today this_month = false ->
      last_due_date today this_month lease = Ok this_month).
Proof.
  intros Hv H1 Htm.
  rewrite this_month_due_date_min in Htm by assumption.
  injection Htm as <-.
  pose proof Hv as Hv'. apply valid_ymd_iff in Hv' as (Hy & Hm & Hd).
  pose proof (days_in_month_bounds (year today) (month today)) as Hb.
  set (tm := mkdate (year today) (month today)
                    (Z.min (days_in_month (year today) (month today))
                           (rent_due_day lease))).
  assert (Htmv : valid_date tm = true).
  { apply valid_ymd_iff. subst tm; simpl. lia. }
  unfold last_due_date. split; intros Hlt; rewrite Hlt; [| reflexivity].
  intros Hprev.
  rewrite sub_one_month_ok by assumption.
  pose proof (month_before_bounds tm Htmv Hprev) as Hmb.
  unfold reanchored. destruct (month_before tm) as [py pm]; simpl in Hmb.
  pose proof (days_in_month_bounds py pm) as Hpb.
  cbn [bind day].
  destruct (Z.min (days_in_month py pm) (day tm) =? rent_due_day lease) eqn:Eday;
    cbn [negb].
  - apply Z.eqb_eq in Eday. f_equal. f_equal. subst tm; simpl in *. lia.
  - unfold set_day. cbn [year month day].
    replace (rent_due_day lease =? 0) with false
      by (symmetry; apply Z.eqb_neq; lia).
    rewrite date_new_ok by lia. reflexivity.
Qed.

(** ** Rent status *)

Lemma is_active_started (today : date) (lease : LeaseContract) :
  is_active today lease = true -> date_ltb today (start_date lease) = false.
Proof.
  unfold is_active. rewrite andb_true_iff. intros [Hs _].
  rewrite date_ltb_leb, Hs. reflexivity.
Qed.

Lemma rent_status_of_lease_started (st : RecordStore) (today : date)
  (lease : LeaseContract) (rt : InvoiceType) (ld : date) (g : Z) :
  date_ltb today (start_date lease) = false ->
  rent_types st = [rt] ->
  last_due_of today lease = Ok ld ->
  timedelta_days (days_grace_period lease) = Ok g ->
  rent_status_of_lease st today lease =
  (invoice <- objects_get (rent_invoices st rt ld (tenant lease))
                Invoice_DoesNotExist Invoice_MultipleObjectsReturned ;;
   status_of_invoice today ld g invoice).
Proof.
  intros Hs Hrt Hld Hg. unfold rent_status_of_lease, last_due_of in *.
  rewrite Hs.
  destruct (this_month_due_date today lease) as [tm | e]; [| discriminate].
  cbn [bind] in *. rewrite Hg. cbn [bind]. rewrite Hld. cbn [bind].
  rewrite Hrt. reflexivity.
Qed.

Lemma get_rent_status_one_lease (st : RecordStore) (self : Property)
  (now today : date) (lease : LeaseContract) :
  get_active_leases st self now = [lease] ->
  get_rent_status st self now today =
  match rent_status_of_lease st today lease with
  | Ok (Returned s) => Ok s
  | Ok (Continue ret) => Ok ret
  | Raise Invoice_DoesNotExist => Ok "!!"
  | Raise LeaseContract_DoesNotExist => Ok "NA"
  | Raise e => Raise e
  end.
Proof.
  intros Hl. unfold get_rent_status. rewrite Hl. cbn [rent_status_loop].
  destruct (rent_status_of_lease st today lease) as [[s | ret] | e];
    cbn [bind rent_status_loop]; try reflexivity.
  destruct e; reflexivity.
Qed.

Lemma get_rent_status_no_lease (st : RecordStore) (self : Property)
  (now today : date) :
  get_active_leases st self now = [] ->
  get_rent_status st self now today = Ok "!!".
Proof.
  intros Hl. unfold get_rent_status. rewrite Hl. reflexivity.
Qed.



(** ** The activity feed *)

Lemma same_fields_eq (a b : Event) : same_fields a b -> a = b.
Proof.
  destruct a, b. unfold same_fields. simpl.
  intros (-> & -> & -> & -> & -> & ->). reflexivity.
Qed.

Section ActivityProperties.

Variable angular_sref : string -> Z -> string.
Variable set_iter : list Event -> list Event.

Lemma get_activity_gathered (st : RecordStore) (self : Property)
  (user : UserProfile) (now today : date) (out : list Event) :
  get_activity angular_sref set_iter st self user now today = Ok out ->
  exists acts,
    gathered_activity angular_sref st self user now today = Ok acts
    /\ out = sort_desc event_day (set_iter acts).
Proof.
  unfold get_activity.
  destruct (gathered_activity angular_sref st self user now today) as [acts | e];
    cbn [bind]; [| discriminate].
  intros H. injection H as <-. now exists acts.
Qed.

(** With nothing bound to [contract], the first assigned request ends the
    method. *)
Lemma collect_assigned_unbound (today : date) (l : list MaintenanceRequest) :
  l <> [] ->
  collect (assigned_request_events angular_sref None today) l
  = Raise UnboundLocalError.
Proof.
  destruct l as [| r rest]; [congruence |]. intros _. reflexivity.
Qed.

Lemma created_unbound_cases (today : date) (r : MaintenanceRequest) :
  (exists evs, created_request_events angular_sref None today r = Ok evs)
  \/ created_request_events angular_sref None today r = Raise UnboundLocalError.
Proof.
  unfold created_request_events.
  destruct (set_and_reached (resolution_date r) today); cbn [read_contract bind];
    [now right |].
  destruct (assigned_date r) as [d |]; [destruct (date_leb d today) |];
    cbn [read_contract bind]; eauto.
Qed.

Lemma created_unbound_closed (today : date) (r : MaintenanceRequest) :
  set_and_reached (resolution_date r) today = true ->
  created_request_events angular_sref None today r = Raise UnboundLocalError.
Proof.
  intros H. unfold created_request_events. rewrite H. reflexivity.
Qed.

Lemma collect_created_unbound (today : date) (l : list MaintenanceRequest)
  (r : MaintenanceRequest) :
  In r l ->
  set_and_reached (resolution_date r) today = true ->
  collect (created_request_events angular_sref None today) l
  = Raise UnboundLocalError.
Proof.
  intros Hin Hr. induction l as [| x rest IH]; [contradiction |].
  cbn [collect].
  destruct Hin as [-> | Hin].
  - now rewrite created_unbound_closed.
  - destruct (created_unbound_cases today x) as [[evs ->] | ->];
      [| reflexivity].
    cbn [bind]. now rewrite IH.
Qed.

(** C1. A user who manages no contract on the property and has a
    maintenance request of the property assigned: [get_activity] does not
    return a list, it ends with the [UnboundLocalError] of reading
    [contract]. *)
Theorem get_activity_assigned_request_unbound (st : RecordStore)
  (self : Property) (user : UserProfile) (now today : date) :
  contracts_of_manager st self user = [] ->
  assigned_requests st self user <> [] ->
  get_activity angular_sref set_iter st self user now today
  = Raise UnboundLocalError.
Proof.
  intros Hc Ha. unfold get_activity, gathered_activity.
  rewrite Hc. cbn [loop_variable].
  now rewrite collect_assigned_unbound.
Qed.

(** C9. A user who manages no contract on the property and has created a
    request of the property whose resolution date is set and reached:
    [get_activity] gives no events, it ends with the [UnboundLocalError] of
    reading [contract.assignee]. *)
Theorem get_activity_closed_request_unbound (st : RecordStore)
  (self : Property) (user : UserProfile) (now today : date)
  (r : MaintenanceRequest) :
  contracts_of_manager st self user = [] ->
  In r (created_requests st self user) ->
  set_and_reached (resolution_date r) today = true ->
  get_activity angular_sref set_iter st self user now today
  = Raise UnboundLocalError.
Proof.
  intros Hc Hin Hr. unfold get_activity, gathered_activity.
  rewrite Hc. cbn [loop_variable].
  destruct (assigned_requests st self user) as [| a rest] eqn:Ha.
  - cbn [collect bind]. now rewrite (collect_created_unbound today _ r).
  - now rewrite collect_assigned_unbound.
Qed.

(** C8. The list [get_activity] returns is sorted by day, newest first:
    every event is dated no earlier than the events after it, a datetime
    counting as its date. *)
Theorem activity_sorted_newest_first (st : RecordStore) (self : Property)
  (user : UserProfile) (now today : date) (out : list Event) :
  get_activity angular_sref set_iter st self user now today = Ok out ->
  StronglySorted (not_before event_day) out.
Proof.
  intros H. apply get_activity_gathered in H as (acts & _ & ->).
  apply sort_desc_sorted.
Qed.

Hypothesis set_iter_nodup : forall l, NoDup (set_iter l).
Hypothesis set_iter_in : forall l x, In x (set_iter l) <-> In x l.

(** C7. The list [get_activity] returns has no two positions holding
    events with the same six entries, and it holds exactly the events that
    were gathered: equal events are collapsed to one. *)
Theorem activity_no_duplicates (st : RecordStore) (self : Property)
  (user : UserProfile) (now today : date) (out : list Event) :
  get_activity angular_sref set_iter st self user now today = Ok out ->
  (forall (i j : nat) (a b : Event),
      nth_error out i = Some a -> nth_error out j = Some b ->
      same_fields a b -> i = j)
  /\ (exists acts,
         gathered_activity angular_sref st self user now today = Ok acts
         /\ forall e, In e out <-> In e acts).
Proof.
  intros H. apply get_activity_gathered in H as (acts & Hg & ->). split.
  - intros i j a b Hi Hj Hab. apply same_fields_eq in Hab. subst b.
    assert (Hnd : NoDup (sort_desc event_day (set_iter acts)))
      by (apply sort_desc_nodup, set_iter_nodup).
    rewrite NoDup_nth_error in Hnd. apply Hnd.
    + apply nth_error_Some. rewrite Hi. discriminate.
    + now rewrite Hi, Hj.
  - exists acts. split; [exact Hg |]. intros e.
    now rewrite sort_desc_in, set_iter_in.
Qed.

End ActivityProperties.

Lemma get_activity_returns_without_requests (angular_sref : string -> Z -> string)
  (set_iter : list Event -> list Event) (st : RecordStore) (self : Property)
  (user : UserProfile) (now today : date) :
  assigned_requests st self user = [] ->
  created_requests st self user = [] ->
  returns (get_activity angular_sref set_iter st self user now today).
Proof.
  intros Ha Hc. unfold returns, get_activity, gathered_activity.
  rewrite Ha, Hc. cbn [collect bind]. eauto.
Qed.

(** ** The not-started guard and the clock *)

(** The guard of line 108 answers "NA" for a lease that is in effect on the
    clock's date and starts after the reference date. *)
Lemma get_rent_status_not_started (st : RecordStore) (self : Property)
  (now today : date) (lease : LeaseContract) (rest : list LeaseContract) :
  get_active_leases st self now = lease :: rest ->
  date_ltb today (start_date lease) = true ->
  get_rent_status st self now today = Ok "NA".
Proof.
  intros Hl Hs. unfold get_rent_status. rewrite Hl. cbn [rent_status_loop].
  unfold rent_status_of_lease. rewrite Hs. reflexivity.
Qed.

Import Sample.

(** C4. The house has one lease, which starts in June 2024, and the
    reference date (also the clock's date) is 3 March 2024: the reference
    date precedes the lease's start, no lease is in effect, and the status
    is "!!", not "NA". *)
Theorem rent_status_before_lease_start_unknown :
  In lease_from_june (leases (store_with [lease_from_june] []))
  /\ date_ltb today_0303 (start_date lease_from_june) = true
  /\ get_active_leases (store_with [lease_from_june] []) house today_0303 = []
  /\ get_rent_status (store_with [lease_from_june] []) house today_0303 today_0303
     = Ok "!!".
Proof.
  split; [now left |]. split; [reflexivity |]. split; reflexivity.
Qed.

(** C10. The same store, property, user and [today] argument give
    different results on different clock dates: the rent status of 3 March
    2024 is "Due" when read on that day and "!!" when read a year later, and
    the feed loses its message once the clock's date has no tenant. *)
Theorem results_change_with_clock :
  get_rent_status unpaid_store house today_0303 today_0303 = Ok "Due"
  /\ get_rent_status unpaid_store house (mkdate 2025 3 3) today_0303 = Ok "!!"
  /\ get_activity sref_path set_in_list_order message_store house alice
                  today_0303 today_0303
     = Ok [note_received; lease_started]
  /\ get_activity sref_path set_in_list_order message_store house alice
                  (mkdate 2025 3 3) today_0303
     = Ok [lease_started].
Proof.
  split; [reflexivity |]. split; [reflexivity |]. split; reflexivity.
Qed.

(** Two Rent invoices of the tenant due on the last due date, or no invoice
    type named "Rent", end [get_rent_status] with an exception neither
    [except] clause names. *)
Example rent_status_two_invoices :
  get_rent_status (store_with [lease_2024] [march_rent None; march_rent None])
                  house today_0303 today_0303
  = Raise Invoice_MultipleObjectsReturned.
Proof. reflexivity. Qed.

Example rent_status_no_rent_type :
  get_rent_status (mkStore [lease_2024] [] [] [] [march_rent None] [])
                  house today_0303 today_0303
  = Raise InvoiceType_DoesNotExist.
Proof. reflexivity. Qed.

(** The scenarios of the spec: rent due on the 1st, five days of grace. *)
Example scenario_due :
  get_rent_status unpaid_store house today_0303 today_0303 = Ok "Due".
Proof. reflexivity. Qed.

Example scenario_late :
  get_rent_status unpaid_store house today_0310 today_0310 = Ok "Late".
Proof. reflexivity. Qed.

Example scenario_paid :
  get_rent_status paid_store house today_0310 today_0310 = Ok "Paid".
Proof. reflexivity. Qed.

Example fromordinal_examples :
  fromordinal (toordinal (mkdate 2024 3 1) + 5) = mkdate 2024 3 6
  /\ fromordinal (toordinal (mkdate 2024 12 31)) = mkdate 2024 12 31
  /\ fromordinal (toordinal (mkdate 2023 2 28) + 1) = mkdate 2023 3 1
  /\ toordinal (mkdate 9999 12 31) = MAXORDINAL
  /\ toordinal (mkdate 1 1 1) = 1.
Proof. repeat split. Qed.

(** ** The theorems at sample rows *)


Lemma last_due_date_reanchored_witness :
  valid_date (mkdate 2023 3 15) = true
  /\ 1 <= rent_due_day lease_due_31
  /\ this_month_due_date (mkdate 2023 3 15) lease_due_31 = Ok (mkdate 2023 3 31)
  /\ date_ltb (mkdate 2023 3 15) (mkdate 2023 3 31) = true
  /\ last_due_date (mkdate 2023 3 15) (mkdate 2023 3 31) lease_due_31
     = Ok (mkdate 2023 2 28).
Proof.
  split; [reflexivity |]. split; [simpl; lia |]. split; [reflexivity |].
  split; [reflexivity |].
  refine (proj1 (last_due_date_reanchored (mkdate 2023 3 15) (mkdate 2023 3 31)
                   lease_due_31 eq_refl _ eq_refl) eq_refl _).
  - simpl; lia.
  - left; simpl; lia.
Defined.



Lemma get_activity_assigned_request_unbound_witness :
  contracts_of_manager (request_store [roof_request]) house alice = []
  /\ assigned_requests (request_store [roof_request]) house alice = [roof_request]
  /\ get_activity sref_path set_in_list_order (request_store [roof_request])
                  house alice today_0310 today_0310
     = Raise UnboundLocalError.
Proof.
  do 2 (split; [reflexivity |]).
  apply get_activity_assigned_request_unbound; [reflexivity | discriminate].
Defined.

Lemma get_activity_closed_request_unbound_witness :
  contracts_of_manager (request_store [tap_request]) house bob = []
  /\ In tap_request (created_requests (request_store [tap_request]) house bob)
  /\ set_and_reached (resolution_date tap_request) today_0310 = true
  /\ get_activity sref_path set_in_list_order (request_store [tap_request])
                  house bob today_0310 today_0310
     = Raise UnboundLocalError.
Proof.
  split; [reflexivity |]. split; [now left |]. split; [reflexivity |].
  apply (get_activity_closed_request_unbound sref_path set_in_list_order
           (request_store [tap_request]) house bob today_0310 today_0310
           tap_request); [reflexivity | now left | reflexivity].
Defined.

Lemma activity_sorted_newest_first_witness :
  get_activity sref_path set_in_list_order message_store house alice
               today_0303 today_0303
  = Ok [note_received; lease_started]
  /\ StronglySorted (not_before event_day) [note_received; lease_started].
Proof.
  split; [reflexivity |].
  apply (activity_sorted_newest_first sref_path set_in_list_order message_store
           house alice today_0303 today_0303).
  reflexivity.
Defined.

Lemma activity_no_duplicates_witness :
  gathered_activity sref_path unpaid_store bobs_house bob today_0310 today_0310
  = Ok [lease_started; lease_started; rent_created; rent_due]
  /\ get_activity sref_path set_in_list_order unpaid_store bobs_house bob
                  today_0310 today_0310
     = Ok [rent_due; rent_created; lease_started]
  /\ forall (i j : nat) (a b : Event),
      nth_error [rent_due; rent_created; lease_started] i = Some a ->
      nth_error [rent_due; rent_created; lease_started] j = Some b ->
      same_fields a b -> i = j.
Proof.
  split; [reflexivity |]. split; [reflexivity |].
  apply (activity_no_duplicates sref_path set_in_list_order
           set_in_list_order_nodup set_in_list_order_in
           unpaid_store bobs_house bob today_0310 today_0310).
  reflexivity.
Defined.

(** * Further properties *)

(** ** Leases in effect, tenants and roles *)

Lemma filter_filter_andb {A : Type} (f g : A -> bool) (l : list A) :
  filter f (filter g l) = filter (fun x => g x && f x) l.
Proof.
  induction l as [| x l IH]; simpl; [reflexivity |].
  destruct (g x); simpl; [destruct (f x) |]; now rewrite IH.
Qed.

Lemma positive_length {A : Type} (l : list A) :
  (0 <? Z.of_nat (List.length l)) = true <-> exists x, In x l.
Proof.
  destruct l as [| x l]; simpl.
  - split; [discriminate | intros [x []]].
  - split; [intros _; exists x; now left | intros _; apply Z.ltb_lt; lia].
Qed.

Lemma in_get_active_leases (st : RecordStore) (self : Property) (d : date)
  (lease : LeaseContract) :
  In lease (get_active_leases st self d) <->
  In lease (leases st) /\ lease_property lease = prop_id self
  /\ date_leb (start_date lease) d = true /\ date_leb d (end_date lease) = true.
Proof.
  unfold get_active_leases, is_active.
  rewrite filter_In, !andb_true_iff, Z.eqb_eq. tauto.
Qed.

(** X1. The tenants [get_tenants] lists for a date are the tenants of the
    leases [get_active_leases] gives for that date, in the same order. *)
Theorem get_tenants_of_active_leases (st : RecordStore) (self : Property) (d : date) :
  get_tenants st self d = map tenant (get_active_leases st self d).
Proof.
  unfold get_tenants, get_active_leases. now rewrite filter_filter_andb.
Qed.

(** X2. A lease in effect on two dates is in effect on every date between
    them. *)
Theorem active_leases_between (st : RecordStore) (self : Property)
  (d1 d2 d3 : date) (lease : LeaseContract) :
  In lease (get_active_leases st self d1) ->
  In lease (get_active_leases st self d3) ->
  date_leb d1 d2 = true -> date_leb d2 d3 = true ->
  In lease (get_active_leases st self d2).
Proof.
  rewrite !in_get_active_leases.
  intros (Hin & Hp & Hs1 & _) (_ & _ & _ & He3) H12 H23.
  repeat split; try assumption.
  - now apply date_leb_trans with d1.
  - now apply date_leb_trans with d3.
Qed.

(** X3. A lease whose end date is before its start date is in effect on no
    date: neither [get_active_leases] nor [get_tenants] ever shows it. *)
Theorem inverted_lease_never_active (st : RecordStore) (self : Property)
  (d : date) (lease : LeaseContract) :
  date_ltb (end_date lease) (start_date lease) = true ->
  ~ In lease (get_active_leases st self d).
Proof.
  intros Hinv Hin. apply in_get_active_leases in Hin as (_ & _ & Hs & He).
  rewrite date_ltb_leb in Hinv.
  rewrite (date_leb_trans _ _ _ Hs He) in Hinv. discriminate.
Qed.

Lemma in_roles_tenant (st : RecordStore) (self : Property)
  (user_profile : UserProfile) (today : date) :
  In "tenant" (get_user_roles st self user_profile today) <->
  (0 <? Z.of_nat (List.length (active_leases_of st self user_profile today))) = true.
Proof.
  unfold get_user_roles.
  destruct (existsb (Z.eqb (up_id user_profile)) (owners self));
    destruct (0 <? Z.of_nat (List.length (active_contracts_of st self user_profile today)));
    destruct (0 <? Z.of_nat (List.length (active_leases_of st self user_profile today)));
    simpl; split; intros H; try reflexivity; try discriminate; auto 6;
    repeat (destruct H as [H | H]; try discriminate H); contradiction.
Qed.

Lemma in_roles_manager (st : RecordStore) (self : Property)
  (user_profile : UserProfile) (today : date) :
  In "manager" (get_user_roles st self user_profile today) <->
  (0 <? Z.of_nat (List.length (active_contracts_of st self user_profile today))) = true.
Proof.
  unfold get_user_roles.
  destruct (existsb (Z.eqb (up_id user_profile)) (owners self));
    destruct (0 <? Z.of_nat (List.length (active_contracts_of st self user_profile today)));
    destruct (0 <? Z.of_nat (List.length (active_leases_of st self user_profile today)));
    simpl; split; intros H; try reflexivity; try discriminate; auto 6;
    repeat (destruct H as [H | H]; try discriminate H); contradiction.
Qed.

(** X4. [get_user_roles] gives the role "tenant" exactly to the users
    [get_tenants] lists for the same date (users compared by primary key). *)
Theorem tenant_role_iff_listed_tenant (st : RecordStore) (self : Property)
  (user_profile : UserProfile) (today : date) :
  In "tenant" (get_user_roles st self user_profile today) <->
  exists t, In t (get_tenants st self today) /\ up_id t = up_id user_profile.
Proof.
  rewrite in_roles_tenant, positive_length.
  unfold active_leases_of, get_tenants. split.
  - intros [lease Hl]. apply filter_In in Hl as [Hl Hc].
    rewrite !andb_true_iff, Z.eqb_eq in Hc. destruct Hc as [[Ht Hs] He].
    exists (tenant lease). split; [| exact Ht].
    apply in_map, filter_In. split; [exact Hl |]. now rewrite Hs, He.
  - intros (t & Ht & Hid). apply in_map_iff in Ht as (lease & <- & Hl).
    apply filter_In in Hl as [Hl Hc]. apply andb_true_iff in Hc as [Hs He].
    exists lease. apply filter_In. split; [exact Hl |].
    rewrite Hs, He, !andb_true_r. now apply Z.eqb_eq.
Qed.

(** ** The answers of [get_rent_status] *)

Ltac break_bind H :=
  repeat match type of H with
         | context [bind ?m _] =>
             let E := fresh "E" in
             destruct m eqn:E; cbn [bind] in H; try discriminate H
         end.

Lemma this_month_due_date_raise (today : date) (lease : LeaseContract) (e : exn) :
  this_month_due_date today lease = Raise e -> e = ValueError.
Proof.
  unfold this_month_due_date.
  destruct (date_new _ _ (rent_due_day lease)); [discriminate |].
  destruct (date_new _ _ _); [discriminate |]. congruence.
Qed.

Lemma last_due_date_raise (today tm : date) (lease : LeaseContract) (e : exn) :
  last_due_date today tm lease = Raise e -> e = ValueError.
Proof.
  unfold last_due_date, sub_one_month, set_day.
  destruct (date_ltb today tm); [| discriminate].
  destruct (_ && _); cbn [bind]; [| congruence].
  destruct (date_new _ _ _) as [ld |]; cbn [bind]; [| congruence].
  destruct (negb _); [| discriminate].
  destruct (date_new _ _ _); [discriminate | congruence].
Qed.

Lemma rent_status_of_lease_raise (st : RecordStore) (today : date)
  (lease : LeaseContract) (e : exn) :
  rent_status_of_lease st today lease = Raise e ->
  In e [ValueError; OverflowError; InvoiceType_DoesNotExist;
        InvoiceType_MultipleObjectsReturned; Invoice_DoesNotExist;
        Invoice_MultipleObjectsReturned].
Proof.
  unfold rent_status_of_lease. intros H.
  destruct (date_ltb today (start_date lease)); [discriminate H |].
  destruct (this_month_due_date today lease) as [tm | e1] eqn:Etm; cbn [bind] in H.
  2: { injection H as <-. apply this_month_due_date_raise in Etm as ->. simpl; auto. }
  unfold timedelta_days in H.
  destruct (_ && _) in H; cbn [bind] in H;
    [| injection H as <-; simpl; auto].
  destruct (last_due_date today tm lease) as [ld | e1] eqn:Eld; cbn [bind] in H.
  2: { injection H as <-. apply last_due_date_raise in Eld as ->. simpl; auto. }
  unfold objects_get in H at 1.
  destruct (rent_types st) as [| rt [| rt' rts]]; cbn [bind] in H;
    try (injection H as <-; simpl; now auto 8).
  unfold objects_get in H.
  destruct (rent_invoices st rt ld (tenant lease)) as [| inv [| inv' invs]];
    cbn [bind] in H; try (injection H as <-; simpl; now auto 8).
  destruct (is_some (paid_date inv)); [discriminate H |].
  destruct (date_leb ld today); [| discriminate H].
  unfold date_add_days in H.
  destruct (_ && _) in H; cbn [bind] in H;
    [destruct (date_leb today _); discriminate H |].
  injection H as <-. simpl; auto.
Qed.

Lemma rent_status_of_lease_ok (st : RecordStore) (today : date)
  (lease : LeaseContract) (f : flow) :
  rent_status_of_lease st today lease = Ok f ->
  (f = Returned "NA" /\ date_ltb today (start_date lease) = true)
  \/ (date_ltb today (start_date lease) = false
      /\ (f = Continue "Paid" \/ f = Continue "Due" \/ f = Continue "Late")).
Proof.
  unfold rent_status_of_lease. intros H.
  destruct (date_ltb today (start_date lease)).
  - left. split; congruence.
  - right. split; [reflexivity |]. break_bind H.
    all: destruct (is_some _); [left; congruence |].
    all: destruct (date_leb _ today); [| right; right; congruence].
    + destruct (date_leb today _); [right; left | right; right]; congruence.
    + discriminate H.
Qed.

Lemma rent_status_loop_ok (st : RecordStore) (today : date)
  (ls : list LeaseContract) (ret s : string) :
  rent_status_loop st today ls ret = Ok s ->
  (s = ret /\ forall l, In l ls -> date_ltb today (start_date l) = false)
  \/ (In s ["Paid"; "Due"; "Late"])
  \/ (s = "NA" /\ exists l, In l ls /\ date_ltb today (start_date l) = true).
Proof.
  revert ret. induction ls as [| lease rest IH]; intros ret H; cbn [rent_status_loop] in H.
  - left. split; [congruence | intros l []].
  - destruct (rent_status_of_lease st today lease) as [f | e] eqn:Ef;
      cbn [bind] in H; [| discriminate H].
    apply rent_status_of_lease_ok in Ef as [[-> Hs] | [Hs Hf]].
    + right; right. injection H as <-. split; [reflexivity |].
      exists lease. split; [now left | exact Hs].
    + assert (Hin : In (match f with Continue r => r | Returned r => r end)
                       ["Paid"; "Due"; "Late"])
        by (destruct Hf as [-> | [-> | ->]]; simpl; auto).
      destruct f as [r | r]; [destruct Hf as [Hf | [Hf | Hf]]; discriminate Hf |].
      apply IH in H as [[-> Hall] | [H | (-> & l & Hl & Hlt)]].
      * right; left. exact Hin.
      * right; left. exact H.
      * right; right. split; [reflexivity |]. exists l. split; [now right | exact Hlt].
Qed.

Lemma rent_status_loop_raise (st : RecordStore) (today : date)
  (ls : list LeaseContract) (ret : string) (e : exn) :
  rent_status_loop st today ls ret = Raise e ->
  In e [ValueError; OverflowError; InvoiceType_DoesNotExist;
        InvoiceType_MultipleObjectsReturned; Invoice_DoesNotExist;
        Invoice_MultipleObjectsReturned].
Proof.
  revert ret. induction ls as [| lease rest IH]; intros ret H; cbn [rent_status_loop] in H.
  - discriminate H.
  - destruct (rent_status_of_lease st today lease) as [f | e1] eqn:Ef; cbn [bind] in H.
    + destruct f as [s | r]; [discriminate H | now apply IH in H].
    + injection H as <-. now apply rent_status_of_lease_raise in Ef.
Qed.

Lemma get_rent_status_ok (st : RecordStore) (self : Property) (now today : date)
  (s : string) :
  get_rent_status st self now today = Ok s ->
  s = "!!" \/ In s ["Paid"; "Due"; "Late"]
  \/ (s = "NA" /\ exists l, In l (get_active_leases st self now)
                            /\ date_ltb today (start_date l) = true).
Proof.
  unfold get_rent_status. intros H.
  destruct (rent_status_loop st today (get_active_leases st self now) "!!")
    as [s' | e] eqn:El.
  - injection H as <-. apply rent_status_loop_ok in El as [[-> _] | [Hs | Hs]]; auto.
  - apply rent_status_loop_raise in El. simpl in El.
    destruct El as [<- | [<- | [<- | [<- | [<- | [<- | []]]]]]]; try discriminate H.
    left. congruence.
Qed.

(** X5. Whatever the store holds, a status [get_rent_status] returns is one
    of "Paid", "Due", "Late", "NA" and "!!". *)
Theorem rent_status_is_one_of_five (st : RecordStore) (self : Property)
  (now today : date) (s : string) :
  get_rent_status st self now today = Ok s -> In s rent_status_values.
Proof.
  intros H. apply get_rent_status_ok in H as [-> | [H | [-> _]]];
    unfold rent_status_values; simpl in *; intuition.
Qed.

(** X6. "NA" is only ever the answer of the not-started guard: a lease in
    effect on the clock's date starts after the reference date.  So a call
    whose reference date is the clock's date never answers "NA". *)
Theorem rent_status_NA_only_before_start :
  (forall (st : RecordStore) (self : Property) (now today : date),
      get_rent_status st self now today = Ok "NA" ->
      exists lease, In lease (get_active_leases st self now)
                    /\ date_ltb today (start_date lease) = true)
  /\ (forall (st : RecordStore) (self : Property) (today : date),
         get_rent_status st self today today <> Ok "NA").
Proof.
  assert (Hna : forall st self now today,
             get_rent_status st self now today = Ok "NA" ->
             exists lease, In lease (get_active_leases st self now)
                           /\ date_ltb today (start_date lease) = true).
  { intros st self now today H.
    apply get_rent_status_ok in H as [H | [H | [_ H]]]; [discriminate H | | exact H].
    simpl in H. destruct H as [H | [H | [H | []]]]; discriminate H. }
  split; [exact Hna |].
  intros st self today H. apply Hna in H as (lease & Hin & Hlt).
  apply in_get_active_leases in Hin as (_ & _ & Hs & _).
  rewrite date_ltb_leb, Hs in Hlt. discriminate Hlt.
Qed.

Lemma rent_status_loop_continue (st : RecordStore) (today : date)
  (before rest : list LeaseContract) (ret : string) :
  (forall l, In l before -> exists r, rent_status_of_lease st today l = Ok (Continue r)) ->
  exists ret', rent_status_loop st today (before ++ rest) ret
               = rent_status_loop st today rest ret'.
Proof.
  revert ret. induction before as [| l before IH]; intros ret Hall.
  - now exists ret.
  - destruct (Hall l (or_introl eq_refl)) as [r Hr].
    cbn [app rent_status_loop]. rewrite Hr. cbn [bind].
    apply IH. intros l' Hl'. apply Hall. now right.
Qed.

(** X7. With several leases in effect the last one decides: when the turns
    of the loop for the leases before it go through, the answer is the one
    the last lease gives on its own. *)
Theorem rent_status_last_lease_decides (st : RecordStore) (self : Property)
  (now today : date) (before : list LeaseContract) (lease : LeaseContract) :
  get_active_leases st self now = before ++ [lease] ->
  (forall l, In l before -> exists r, rent_status_of_lease st today l = Ok (Continue r)) ->
  get_rent_status st self now today = lease_status st today lease.
Proof.
  intros Hl Hall. unfold get_rent_status, lease_status. rewrite Hl.
  destruct (rent_status_loop_continue st today before [lease] "!!" Hall) as [ret' ->].
  cbn [rent_status_loop].
  destruct (rent_status_of_lease st today lease) as [[s | r] | e]; cbn [bind rent_status_loop];
    try reflexivity.
  destruct e; reflexivity.
Qed.

(** ** Due dates at the edges *)


Lemma last_due_of_cases (today : date) (lease : LeaseContract) (ld : date) :
  valid_date today = true ->
  1 <= rent_due_day lease ->
  last_due_of today lease = Ok ld ->
  let tm := mkdate (year today) (month today)
                   (Z.min (days_in_month (year today) (month today))
                          (rent_due_day lease)) in
  (date_ltb today tm = false /\ ld = tm)
  \/ (date_ltb today tm = true /\ (1 < year today \/ 1 < month today)
      /\ ld = reanchored tm (rent_due_day lease)).
Proof.
  intros Hv H1 Hld tm. unfold last_due_of in Hld.
  rewrite this_month_due_date_min in Hld by assumption. cbn [bind] in Hld.
  fold tm in Hld.
  pose proof Hv as Hv'. apply valid_ymd_iff in Hv' as (Hy & Hm & Hd).
  pose proof (days_in_month_bounds (year today) (month today)) as Hb.
  assert (Htmv : valid_date tm = true) by (apply valid_ymd_iff; subst tm; simpl; lia).
  unfold last_due_date in Hld.
  destruct (date_ltb today tm) eqn:Hlt; [right | left; split; congruence].
  split; [reflexivity |].
  assert (Hprev : 1 < year today \/ 1 < month today).
  { destruct (Z.eq_dec (year today) 1) as [Ey |]; [| lia].
    destruct (Z.eq_dec (month today) 1) as [Em |]; [| lia].
    exfalso. unfold sub_one_month in Hld. subst tm. cbn [year month day] in Hld.
    rewrite Ey, Em in Hld. discriminate Hld. }
  split; [exact Hprev |].
  rewrite sub_one_month_ok in Hld by assumption.
  pose proof (month_before_bounds tm Htmv Hprev) as Hmb.
  unfold reanchored. destruct (month_before tm) as [py pm]; simpl in Hmb.
  pose proof (days_in_month_bounds py pm) as Hpb.
  cbn [bind day] in Hld.
  destruct (Z.min (days_in_month py pm) (day tm) =? rent_due_day lease) eqn:Eday;
    cbn [negb] in Hld.
  - apply Z.eqb_eq in Eday. injection Hld as <-. f_equal. subst tm; simpl in *. lia.
  - unfold set_day in Hld. cbn [year month day] in Hld.
    replace (rent_due_day lease =? 0) with false in Hld
      by (symmetry; apply Z.eqb_neq; lia).
    rewrite date_new_ok in Hld by lia. congruence.
Qed.

Lemma reanchored_before (tm : date) (due_day : Z) :
  valid_date tm = true ->
  1 <= due_day ->
  1 < year tm \/ 1 < month tm ->
  valid_date (reanchored tm due_day) = true
  /\ forall d, year d = year tm -> month d = month tm ->
               date_ltb (reanchored tm due_day) d = true.
Proof.
  intros Hv H1 Hprev.
  pose proof (month_before_bounds tm Hv Hprev) as Hmb.
  apply valid_ymd_iff in Hv as (Hy & Hm & Hd).
  unfold reanchored, month_before in *.
  destruct (month tm =? 1) eqn:E1; simpl in Hmb.
  - apply Z.eqb_eq in E1.
    pose proof (days_in_month_bounds (year tm - 1) 12).
    split; [apply valid_ymd_iff; simpl; lia |].
    intros d Hdy Hdm. apply date_ltb_year. simpl. lia.
  - apply Z.eqb_neq in E1.
    pose proof (days_in_month_bounds (year tm) (month tm - 1)).
    split; [apply valid_ymd_iff; simpl; lia |].
    intros d Hdy Hdm. apply date_ltb_month; simpl; lia.
Qed.

Lemma date_ltb_to_leb (a b : date) : date_ltb a b = true -> date_leb a b = true.
Proof. date_cases. Qed.

Lemma last_due_not_after_today_aux (today : date) (lease : LeaseContract) (ld : date) :
  valid_date today = true ->
  1 <= rent_due_day lease ->
  last_due_of today lease = Ok ld ->
  date_leb ld today = true /\ valid_date ld = true.
Proof.
  intros Hv H1 Hld.
  pose proof Hv as Hv'. apply valid_ymd_iff in Hv' as (Hy & Hm & Hd).
  pose proof (days_in_month_bounds (year today) (month today)) as Hb.
  destruct (last_due_of_cases today lease ld Hv H1 Hld) as [[Hlt ->] | (Hlt & Hprev & ->)].
  - split.
    + rewrite date_ltb_leb in Hlt. now apply negb_false_iff in Hlt.
    + apply valid_ymd_iff; simpl; lia.
  - match goal with |- context [reanchored ?t _] => set (tm := t) end.
    assert (Htmv : valid_date tm = true) by (apply valid_ymd_iff; subst tm; simpl; lia).
    destruct (reanchored_before tm (rent_due_day lease) Htmv H1 Hprev) as [Hval Hbefore].
    split; [| exact Hval].
    apply date_ltb_to_leb, Hbefore; reflexivity.
Qed.

(** X9. The last due date is never after the reference date, and it is a
    date of the calendar: the invoice looked up is always one that is
    already due. *)
Theorem last_due_not_after_today (today : date) (lease : LeaseContract) (ld : date) :
  valid_date today = true ->
  1 <= rent_due_day lease ->
  last_due_of today lease = Ok ld ->
  date_leb ld today = true /\ valid_date ld = true.
Proof.
  apply last_due_not_after_today_aux.
Qed.


(** ** When [get_rent_status] returns *)

Lemma days_before_month_bounds (y m : Z) :
  1 <= m <= 12 -> 0 <= days_before_month y m <= 335.
Proof.
  intros Hm. unfold days_before_month.
  assert (Hk : (Z.to_nat (m - 1) <= 11)%nat) by lia.
  revert Hk. generalize (Z.to_nat (m - 1)). intros k Hk.
  do 12 (destruct k as [| k];
         [cbn [days_before_month_aux]; unfold days_in_month;
          generalize (isleap y); intros b; destruct b; vm_compute;
          split; intros H; discriminate H |]).
  lia.
Qed.

Lemma days_before_year_bounds (y : Z) :
  1 <= y <= 9998 -> 0 <= days_before_year y <= 3651329.
Proof.
  intros Hy. unfold days_before_year. cbv zeta.
  Z.to_euclidean_division_equations. lia.
Qed.

Lemma toordinal_bounds (d : date) :
  valid_date d = true -> year d <= 9998 -> 1 <= toordinal d <= 3651695.
Proof.
  intros Hv Hy. apply valid_ymd_iff in Hv as (Hy' & Hm & Hd).
  pose proof (days_in_month_bounds (year d) (month d)).
  pose proof (days_before_month_bounds (year d) (month d) Hm).
  pose proof (days_before_year_bounds (year d)).
  unfold toordinal. lia.
Qed.

Lemma date_leb_year (a b : date) : date_leb a b = true -> year a <= year b.
Proof. intros H. date_cases. Qed.

Lemma last_due_of_returns (today : date) (lease : LeaseContract) :
  valid_date today = true ->
  1 <= rent_due_day lease ->
  1 < year today \/ 1 < month today ->
  returns (last_due_of today lease).
Proof.
  intros Hv H1 Hprev. unfold returns, last_due_of.
  rewrite this_month_due_date_min by assumption. cbn [bind].
  pose proof Hv as Hv'. apply valid_ymd_iff in Hv' as (Hy & Hm & Hd).
  pose proof (days_in_month_bounds (year today) (month today)) as Hb.
  set (tm := mkdate _ _ _).
  assert (Htmv : valid_date tm = true) by (apply valid_ymd_iff; subst tm; simpl; lia).
  unfold last_due_date. destruct (date_ltb today tm); [| eauto].
  rewrite sub_one_month_ok by assumption.
  pose proof (month_before_bounds tm Htmv Hprev) as Hmb.
  destruct (month_before tm) as [py pm]; simpl in Hmb.
  pose proof (days_in_month_bounds py pm) as Hpb.
  cbn [bind day]. destruct (negb _); [| eauto].
  unfold set_day. cbn [year month day].
  replace (rent_due_day lease =? 0) with false by (symmetry; apply Z.eqb_neq; lia).
  rewrite date_new_ok by lia. eauto.
Qed.

Lemma rent_status_of_lease_well_formed (st : RecordStore) (today : date)
  (lease : LeaseContract) (rt : InvoiceType) :
  valid_date today = true ->
  2 <= year today <= 9998 ->
  rent_types st = [rt] ->
  1 <= rent_due_day lease ->
  0 <= days_grace_period lease <= 364 ->
  (forall ld, (List.length (rent_invoices st rt ld (tenant lease)) <= 1)%nat) ->
  (exists f, rent_status_of_lease st today lease = Ok f)
  \/ rent_status_of_lease st today lease = Raise Invoice_DoesNotExist.
Proof.
  intros Hv Hy Hrt H1 Hg Huniq.
  destruct (date_ltb today (start_date lease)) eqn:Hs.
  - left. unfold rent_status_of_lease. rewrite Hs. eauto.
  - destruct (last_due_of_returns today lease Hv H1) as [ld Hld]; [lia |].
    destruct (last_due_not_after_today_aux today lease ld Hv H1 Hld) as [Hle Hldv].
    assert (Htd : timedelta_days (days_grace_period lease)
                  = Ok (days_grace_period lease)).
    { unfold timedelta_days.
      replace ((-999999999 <=? days_grace_period lease)
               && (days_grace_period lease <=? 999999999)) with true
        by (symmetry; rewrite andb_true_iff, !Z.leb_le; lia).
      reflexivity. }
    rewrite (rent_status_of_lease_started st today lease rt ld _ Hs Hrt Hld Htd).
    specialize (Huniq ld).
    destruct (rent_invoices st rt ld (tenant lease)) as [| inv [| inv' invs]];
      cbn [objects_get bind]; [now right | left | simpl in Huniq; lia].
    unfold status_of_invoice.
    destruct (is_some (paid_date inv)); [eauto |].
    rewrite Hle. unfold date_add_days.
    pose proof (date_leb_year _ _ Hle) as Hyle.
    pose proof (toordinal_bounds ld Hldv ltac:(lia)) as Hord.
    replace ((0 <? toordinal ld + days_grace_period lease)
             && (toordinal ld + days_grace_period lease <=? MAXORDINAL)) with true
      by (symmetry; unfold MAXORDINAL; rewrite andb_true_iff, Z.ltb_lt, Z.leb_le; lia).
    cbn [bind]. destruct (date_leb today _); eauto.
Qed.

Lemma rent_status_loop_well_formed (st : RecordStore) (today : date)
  (ls : list LeaseContract) :
  (forall l, In l ls ->
             (exists f, rent_status_of_lease st today l = Ok f)
             \/ rent_status_of_lease st today l = Raise Invoice_DoesNotExist) ->
  forall ret,
    (exists s, rent_status_loop st today ls ret = Ok s)
    \/ rent_status_loop st today ls ret = Raise Invoice_DoesNotExist.
Proof.
  induction ls as [| l ls IH]; intros Hall ret; cbn [rent_status_loop].
  - left. eauto.
  - destruct (Hall l (or_introl eq_refl)) as [[f ->] | ->]; cbn [bind]; [| now right].
    destruct f as [s | r]; [left; eauto |].
    apply IH. intros l' Hl'. apply Hall. now right.
Qed.


(** ** What the feed holds *)

Lemma collect_in {A B : Type} (f : A -> result (list B)) (l : list A)
  (ys : list B) (y : B) :
  collect f l = Ok ys ->
  (In y ys <-> exists x evs, In x l /\ f x = Ok evs /\ In y evs).
Proof.
  revert ys. induction l as [| x l IH]; intros ys H; cbn [collect] in H.
  - injection H as <-. split; [intros [] | intros (x & evs & [] & _)].
  - destruct (f x) as [evs |] eqn:Ex; cbn [bind] in H; [| discriminate H].
    destruct (collect f l) as [zs |]; cbn [bind] in H; [| discriminate H].
    injection H as <-. rewrite in_app_iff, (IH zs eq_refl). split.
    + intros [Hy | (x' & evs' & Hx' & Hf & Hy)].
      * exists x, evs. auto with datatypes.
      * exists x', evs'. auto with datatypes.
    + intros (x' & evs' & [<- | Hx'] & Hf & Hy).
      * left. congruence.
      * right. eauto.
Qed.

Lemma collect_outcomes {A B : Type} (f : A -> result (list B)) (l : list A) (e : exn) :
  (forall x, In x l -> returns (f x) \/ f x = Raise e) ->
  returns (collect f l) \/ collect f l = Raise e.
Proof.
  unfold returns. induction l as [| x l IH]; intros Hall; cbn [collect].
  - left. eauto.
  - destruct (Hall x (or_introl eq_refl)) as [[evs ->] | ->]; cbn [bind]; [| now right].
    destruct IH as [[zs ->] | ->]; cbn [bind]; eauto.
    intros x' Hx'. apply Hall. now right.
Qed.

Lemma loop_variable_some {A : Type} (l : list A) :
  l <> [] -> exists x, loop_variable l = Some x /\ In x l.
Proof.
  induction l as [| x l IH]; [congruence |]. intros _.
  destruct l as [| y l].
  - exists x. split; [reflexivity | now left].
  - destruct IH as (z & Hz & Hin); [discriminate |].
    exists z. split; [exact Hz | now right].
Qed.

Section Feed.

Variable angular_sref : string -> Z -> string.
Variable set_iter : list Event -> list Event.

Lemma lease_events_in (today : date) (ls : list LeaseContract) (e : Event) :
  In e (lease_events angular_sref today ls) <->
  exists lease, In lease ls
                /\ (e = lease_started_event angular_sref lease
                    \/ (date_leb (end_date lease) today = true
                        /\ e = lease_ended_event angular_sref lease)).
Proof.
  unfold lease_events. rewrite in_flat_map. split.
  - intros (lease & Hl & He). exists lease. split; [exact Hl |].
    destruct He as [<- | He]; [now left |].
    destruct (date_leb (end_date lease) today); [| contradiction].
    destruct He as [<- | []]. right. now split.
  - intros (lease & Hl & He). exists lease. split; [exact Hl |].
    destruct He as [-> | [Hle ->]]; [now left |].
    right. rewrite Hle. now left.
Qed.

Lemma request_events_shape (contract : option ManagementContract) (today : date)
  (r : MaintenanceRequest) (evs : list Event) (e : Event) :
  assigned_request_events angular_sref contract today r = Ok evs
  \/ created_request_events angular_sref contract today r = Ok evs ->
  In e evs ->
  ev_type e = "maintenance" /\ ev_actionText e = "View Request".
Proof.
  unfold assigned_request_events, created_request_events, contract_id.
  intros [H | H] Hin;
    destruct contract as [c |]; cbn [read_contract bind] in H;
    try destruct (mc_created_by c); try destruct (mc_assignee c);
    destruct (set_and_reached (resolution_date r) today);
    destruct (assigned_date r) as [ad |]; try destruct (date_leb ad today);
    cbn [read_contract bind] in H; try discriminate H; injection H as <-;
    simpl in Hin; repeat (destruct Hin as [<- | Hin]; [now split |]);
    contradiction.
Qed.

Lemma contract_events_source (today : date) (cs : list ManagementContract) (e : Event) :
  In e (contract_events angular_sref today cs) -> contract_source angular_sref today e.
Proof.
  unfold contract_events. rewrite in_flat_map. intros (c & _ & He).
  exists c. destruct He as [<- | He]; [now left |].
  destruct (date_leb (mc_end_date c) today); [| contradiction].
  destruct He as [<- | []]. right. now split.
Qed.

Lemma message_events_source (st : RecordStore) (self : Property)
  (user : UserProfile) (now : date) (e : Event) :
  In e (message_events angular_sref st self user now) ->
  message_source angular_sref st self user now e.
Proof.
  unfold message_events, message_source.
  destruct (get_tenants st self now) as [| t ts] eqn:Et; [intros [] |].
  cbn [List.length]. replace (0 <? Z.of_nat (S (List.length ts))) with true
    by (symmetry; apply Z.ltb_lt; lia).
  rewrite in_map_iff. intros (m & <- & Hm). split; [discriminate |].
  exists m. split; [| reflexivity].
  unfold selected_messages in Hm. now apply filter_In in Hm as [Hm _].
Qed.

Lemma invoice_events_source (st : RecordStore) (self : Property)
  (user : UserProfile) (today : date) (e : Event) :
  In e (invoice_events angular_sref user today (invoices_of st self user)) ->
  invoice_source st self user e.
Proof.
  unfold invoice_events, invoice_source. rewrite in_flat_map.
  intros (i & Hi & He). exists i. split; [exact Hi |].
  destruct He as [<- | He]; [now repeat split |].
  apply in_app_iff in He as [He | He].
  - destruct (due_date i) as [d |]; [| contradiction].
    destruct (date_leb d today); [| contradiction].
    destruct He as [<- | []]. now repeat split.
  - destruct (paid_date i) as [d |]; [| contradiction].
    destruct (date_leb d today); [| contradiction].
    destruct He as [<- | []]. now repeat split.
Qed.

Lemma gathered_activity_source (st : RecordStore) (self : Property)
  (user : UserProfile) (now today : date) (acts : list Event) (e : Event) :
  gathered_activity angular_sref st self user now today = Ok acts ->
  In e acts ->
  lease_source angular_sref today e \/ contract_source angular_sref today e \/ request_source e
  \/ message_source angular_sref st self user now e \/ invoice_source st self user e.
Proof.
  unfold gathered_activity. intros H Hin.
  destruct (collect (assigned_request_events angular_sref _ today) _)
    as [assigned |] eqn:Ea; cbn [bind] in H; [| discriminate H].
  destruct (collect (created_request_events angular_sref _ today) _)
    as [created |] eqn:Ec; cbn [bind] in H; [| discriminate H].
  injection H as <-.
  repeat (apply in_app_iff in Hin as [Hin | Hin]).
  - left. apply lease_events_in in Hin as (lease & _ & He). now exists lease.
  - left. destruct (existsb _ _); [| contradiction].
    apply lease_events_in in Hin as (lease & _ & He). now exists lease.
  - left. apply lease_events_in in Hin as (lease & _ & He). now exists lease.
  - right; left. now apply contract_events_source in Hin.
  - right; right; left.
    apply (collect_in _ _ _ _ Ea) in Hin as (r & evs & _ & Hf & He).
    eapply request_events_shape; eauto.
  - right; right; left.
    apply (collect_in _ _ _ _ Ec) in Hin as (r & evs & _ & Hf & He).
    eapply request_events_shape; eauto.
  - right; right; right; left. now apply message_events_source in Hin.
  - right; right; right; right. now apply invoice_events_source in Hin.
Qed.

Hypothesis set_iter_in : forall l x, In x (set_iter l) <-> In x l.

Lemma get_activity_in (st : RecordStore) (self : Property) (user : UserProfile)
  (now today : date) (out : list Event) :
  get_activity angular_sref set_iter st self user now today = Ok out ->
  exists acts,
    gathered_activity angular_sref st self user now today = Ok acts
    /\ forall e, In e out <-> In e acts.
Proof.
  intros H. apply get_activity_gathered in H as (acts & Hg & ->).
  exists acts. split; [exact Hg |]. intros e.
  now rewrite sort_desc_in, set_iter_in.
Qed.

End Feed.

Lemma collect_all_ok {A B : Type} (f : A -> result (list B)) (g : A -> list B)
  (l : list A) :
  (forall x, In x l -> f x = Ok (g x)) -> collect f l = Ok (flat_map g l).
Proof.
  induction l as [| x l IH]; intros Hall; cbn [collect flat_map]; [reflexivity |].
  rewrite (Hall x (or_introl eq_refl)). cbn [bind].
  rewrite IH by (intros x' Hx'; apply Hall; now right). reflexivity.
Qed.

Section FeedProperties.

Variable angular_sref : string -> Z -> string.
Variable set_iter : list Event -> list Event.

Lemma gathered_activity_parts (st : RecordStore) (self : Property)
  (user : UserProfile) (now today : date) (acts : list Event) :
  gathered_activity angular_sref st self user now today = Ok acts ->
  exists assigned created,
    acts =
    lease_events angular_sref today (leases_of_tenant st self user)
    ++ (if existsb (Z.eqb (up_id user)) (owners self)
        then lease_events angular_sref today (leases_of_property st self) else [])
    ++ lease_events angular_sref today (leases_managed_by st user)
    ++ contract_events angular_sref today (contracts_of_manager st self user)
    ++ assigned ++ created
    ++ message_events angular_sref st self user now
    ++ invoice_events angular_sref user today (invoices_of st self user).
Proof.
  unfold gathered_activity. intros H.
  destruct (collect (assigned_request_events angular_sref _ today) _)
    as [assigned |]; cbn [bind] in H; [| discriminate H].
  destruct (collect (created_request_events angular_sref _ today) _)
    as [created |]; cbn [bind] in H; [| discriminate H].
  injection H as <-. now exists assigned, created.
Qed.

Lemma request_events_bound (c : ManagementContract) (today : date)
  (r : MaintenanceRequest) :
  (returns (assigned_request_events angular_sref (Some c) today r)
   \/ assigned_request_events angular_sref (Some c) today r = Raise AttributeError)
  /\ (returns (created_request_events angular_sref (Some c) today r)
      \/ created_request_events angular_sref (Some c) today r = Raise AttributeError).
Proof.
  unfold returns, assigned_request_events, created_request_events, contract_id.
  cbn [read_contract bind].
  destruct (mc_created_by c), (mc_assignee c),
    (set_and_reached (resolution_date r) today), (assigned_date r) as [ad |];
    try destruct (date_leb ad today); cbn [bind]; split; eauto.
Qed.

(** X12. A user [get_user_roles] calls a manager of the property has a
    contract there, so [contract] is bound when [get_activity] reaches the
    maintenance requests: the method returns or ends with the
    [AttributeError] of the attribute it reads off the contract, never with
    an [UnboundLocalError]. *)
Theorem manager_role_binds_contract (st : RecordStore) (self : Property)
  (user : UserProfile) (d now today : date) :
  In "manager" (get_user_roles st self user d) ->
  returns (get_activity angular_sref set_iter st self user now today)
  \/ get_activity angular_sref set_iter st self user now today = Raise AttributeError.
Proof.
  rewrite in_roles_manager, positive_length. intros [c Hc].
  unfold active_contracts_of in Hc. rewrite filter_filter_andb in Hc.
  apply filter_In in Hc as [Hc Hcond].
  rewrite !andb_true_iff in Hcond. destruct Hcond as [Hp [[Hm _] _]].
  assert (Hne : contracts_of_manager st self user <> []).
  { intros Hnil.
    assert (Hin : In c (contracts_of_manager st self user)).
    { unfold contracts_of_manager. apply filter_In. split; [exact Hc |].
      now rewrite Hm, Hp. }
    rewrite Hnil in Hin. contradiction. }
  apply loop_variable_some in Hne as (c' & Hc' & _).
  unfold get_activity, gathered_activity. rewrite Hc'.
  destruct (collect_outcomes (assigned_request_events angular_sref (Some c') today)
              (assigned_requests st self user) AttributeError) as [[assigned ->] | ->];
    [intros r _; apply request_events_bound | | now right].
  destruct (collect_outcomes (created_request_events angular_sref (Some c') today)
              (created_requests st self user) AttributeError) as [[created ->] | ->];
    [intros r _; apply request_events_bound | | now right].
  left. unfold returns. cbn [bind]. eauto.
Qed.

(** The properties below are about the events of the returned list. *)
Hypothesis set_iter_in : forall l x, In x (set_iter l) <-> In x l.

Lemma created_request_open (contract : option ManagementContract) (today : date)
  (r : MaintenanceRequest) :
  set_and_reached (resolution_date r) today = false ->
  set_and_reached (assigned_date r) today = false ->
  created_request_events angular_sref contract today r
  = Ok [new_request_event angular_sref r].
Proof.
  intros Hr Ha. unfold created_request_events. rewrite Hr. cbn [bind].
  unfold set_and_reached in Ha.
  destruct (assigned_date r) as [ad |]; [rewrite Ha |]; reflexivity.
Qed.

(** X13. A user with no request assigned, whose own requests on the
    property have neither a resolution date nor an assigned date that is
    reached: [get_activity] returns, also without any management contract,
    and the feed has the "New Request" event of each of those requests. *)
Theorem feed_of_open_requests (st : RecordStore) (self : Property)
  (user : UserProfile) (now today : date) :
  assigned_requests st self user = [] ->
  (forall r, In r (created_requests st self user) ->
             set_and_reached (resolution_date r) today = false
             /\ set_and_reached (assigned_date r) today = false) ->
  exists out,
    get_activity angular_sref set_iter st self user now today = Ok out
    /\ forall r, In r (created_requests st self user) ->
                 In (new_request_event angular_sref r) out.
Proof.
  intros Ha Hopen. unfold get_activity, gathered_activity.
  rewrite Ha. cbn [collect bind].
  rewrite (collect_all_ok _ (fun r => [new_request_event angular_sref r]))
    by (intros r Hr; apply created_request_open; now apply Hopen).
  cbn [bind]. eexists. split; [reflexivity |].
  intros r Hr. rewrite sort_desc_in, set_iter_in, !in_app_iff.
  do 5 right. left. apply in_flat_map. exists r. split; [exact Hr | now left].
Qed.

(** X14. Every lease on the property whose tenant is the user, and every
    lease on the property when the user is one of its owners, has its "Lease
    Started" event in the feed, and its "Lease Ended" event once the end date
    is reached. *)
Theorem feed_has_leases_of_tenant_and_owner (st : RecordStore) (self : Property)
  (user : UserProfile) (now today : date) (out : list Event) (lease : LeaseContract) :
  In lease (leases st) ->
  lease_property lease = prop_id self ->
  up_id (tenant lease) = up_id user \/ In (up_id user) (owners self) ->
  get_activity angular_sref set_iter st self user now today = Ok out ->
  In (lease_started_event angular_sref lease) out
  /\ (date_leb (end_date lease) today = true ->
      In (lease_ended_event angular_sref lease) out).
Proof.
  intros Hl Hp Hwho H.
  apply (get_activity_in _ _ set_iter_in) in H as (acts & Hg & Hout).
  apply gathered_activity_parts in Hg as (assigned & created & ->).
  assert (Hsrc : forall e,
             e = lease_started_event angular_sref lease
             \/ (date_leb (end_date lease) today = true
                 /\ e = lease_ended_event angular_sref lease) ->
             In e out).
  { intros e He. apply Hout. rewrite !in_app_iff.
    destruct Hwho as [Ht | Ho].
    - left. apply lease_events_in. exists lease. split; [| exact He].
      unfold leases_of_tenant. apply filter_In. split; [exact Hl |].
      now rewrite Ht, Hp, !Z.eqb_refl.
    - right; left.
      replace (existsb (Z.eqb (up_id user)) (owners self)) with true.
      + apply lease_events_in. exists lease. split; [| exact He].
        unfold leases_of_property. apply filter_In. split; [exact Hl |].
        now rewrite Hp, Z.eqb_refl.
      + symmetry. apply existsb_exists. exists (up_id user).
        split; [exact Ho | apply Z.eqb_refl]. }
  split; [apply Hsrc; now left | intros He; apply Hsrc; right; now split].
Qed.

(** X16. The leases gathered for a manager are not limited to the property
    asked about: a lease on any property the user has a management contract
    for has its "Lease Started" event in the feed of every property. *)
Theorem feed_has_leases_of_all_managed_properties (st : RecordStore)
  (self : Property) (user : UserProfile) (now today : date) (out : list Event)
  (lease : LeaseContract) (c : ManagementContract) :
  In lease (leases st) ->
  In c (mgmt_contracts st) ->
  mc_property c = lease_property lease ->
  manager c = up_id user ->
  get_activity angular_sref set_iter st self user now today = Ok out ->
  In (lease_started_event angular_sref lease) out.
Proof.
  intros Hl Hc Hp Hm H.
  apply (get_activity_in _ _ set_iter_in) in H as (acts & Hg & Hout).
  apply gathered_activity_parts in Hg as (assigned & created & ->).
  apply Hout. rewrite !in_app_iff. right; right; left.
  apply lease_events_in. exists lease. split; [| now left].
  unfold leases_managed_by. apply in_flat_map. exists lease. split; [exact Hl |].
  apply in_map_iff. exists c. split; [reflexivity |].
  apply filter_In. split; [exact Hc |]. now rewrite Hp, Hm, !Z.eqb_refl.
Qed.

(** X15. The feed never shows a lease or a management contract as ended
    before its end date is reached: a "Lease Ended" event of type lease and a
    "Management Ended" event of type management are dated on or before
    [today]. *)
Theorem ended_events_are_reached (st : RecordStore) (self : Property)
  (user : UserProfile) (now today : date) (out : list Event) (e : Event) :
  get_activity angular_sref set_iter st self user now today = Ok out ->
  In e out ->
  (ev_headline e = "Lease Ended" /\ ev_type e = "lease")
  \/ (ev_headline e = "Management Ended" /\ ev_type e = "management") ->
  date_leb (event_day e) today = true.
Proof.
  intros H Hin Hkind.
  apply (get_activity_in _ _ set_iter_in) in H as (acts & Hg & Hout).
  apply Hout in Hin.
  destruct (gathered_activity_source _ _ _ _ _ _ _ _ Hg Hin)
    as [[lease Hs] | [[c Hs] | [[Ht _] | [[_ (m & _ & ->)] | (i & _ & _ & Ht & _)]]]].
  - destruct Hs as [-> | [Hle ->]]; [| exact Hle].
    destruct Hkind as [[Hh _] | [_ Ht]]; discriminate.
  - destruct Hs as [-> | [Hle ->]]; [| exact Hle].
    destruct Hkind as [[_ Ht] | [Hh _]]; discriminate.
  - destruct Hkind as [[_ Ht'] | [_ Ht']]; rewrite Ht in Ht'; discriminate Ht'.
  - cbn [build_event ev_headline ev_type] in Hkind.
    destruct Hkind as [[Hh Ht] | [Hh Ht]]; rewrite Ht in Hh; discriminate Hh.
  - destruct Hkind as [[_ Ht'] | [_ Ht']]; rewrite Ht in Ht'; discriminate Ht'.
Qed.

(** X17. An invoice event of the feed names the other party of the
    invoice: its person is the payer or the payee of an invoice of the user
    on the property, and not the user when payer and payee differ. *)
Theorem invoice_events_name_other_party (st : RecordStore) (self : Property)
  (user : UserProfile) (now today : date) (out : list Event) (e : Event) :
  get_activity angular_sref set_iter st self user now today = Ok out ->
  In e out ->
  ev_actionText e = "View Invoice" ->
  exists i,
    In i (invoices_of st self user)
    /\ (ev_person e = payer i \/ ev_person e = payee i)
    /\ (payer i <> payee i -> ev_person e <> up_id user).
Proof.
  intros H Hin Ha.
  apply (get_activity_in _ _ set_iter_in) in H as (acts & Hg & Hout).
  apply Hout in Hin.
  destruct (gathered_activity_source _ _ _ _ _ _ _ _ Hg Hin)
    as [[lease Hs] | [[c Hs] | [[_ Hat] | [[_ (m & _ & ->)] | (i & Hi & _ & _ & Hp)]]]].
  - destruct Hs as [-> | [_ ->]]; discriminate Ha.
  - destruct Hs as [-> | [_ ->]]; discriminate Ha.
  - rewrite Hat in Ha. discriminate Ha.
  - discriminate Ha.
  - exists i. split; [exact Hi |].
    unfold invoices_of in Hi. apply filter_In in Hi as [_ Hc].
    apply andb_true_iff in Hc as [Hc _]. apply orb_true_iff in Hc.
    rewrite Hp. destruct (payer i =? up_id user) eqn:Epayer; cbn [negb].
    + apply Z.eqb_eq in Epayer. split; [now right | congruence].
    + apply Z.eqb_neq in Epayer. split; [now left | auto].
Qed.

(** X18. A message event is only in the feed when the property has a
    tenant on the clock's date, and its person is the viewing user. *)
Theorem message_events_need_current_tenant (st : RecordStore) (self : Property)
  (user : UserProfile) (now today : date) (out : list Event) (e : Event) :
  get_activity angular_sref set_iter st self user now today = Ok out ->
  In e out ->
  ev_actionText e = "View" ->
  get_tenants st self now <> [] /\ ev_person e = up_id user.
Proof.
  intros H Hin Ha.
  apply (get_activity_in _ _ set_iter_in) in H as (acts & Hg & Hout).
  apply Hout in Hin.
  destruct (gathered_activity_source _ _ _ _ _ _ _ _ Hg Hin)
    as [[lease Hs] | [[c Hs] | [[_ Hat] | [[Hten (m & _ & ->)] | (i & _ & Hat & _)]]]].
  - destruct Hs as [-> | [_ ->]]; discriminate Ha.
  - destruct Hs as [-> | [_ ->]]; discriminate Ha.
  - rewrite Hat in Ha. discriminate Ha.
  - split; [exact Hten | reflexivity].
  - rewrite Hat in Ha. discriminate Ha.
Qed.

End FeedProperties.

(** ** The further properties at sample rows *)

Lemma active_leases_between_witness :
  In lease_2024 (get_active_leases unpaid_store house (mkdate 2024 1 1))
  /\ In lease_2024 (get_active_leases unpaid_store house (mkdate 2024 12 31))
  /\ In lease_2024 (get_active_leases unpaid_store house today_0303).
Proof.
  split; [now left |]. split; [now left |].
  apply (active_leases_between unpaid_store house (mkdate 2024 1 1) today_0303
           (mkdate 2024 12 31) lease_2024);
    [now left | now left | reflexivity | reflexivity].
Defined.

Lemma inverted_lease_never_active_witness :
  date_ltb (end_date lease_inverted) (start_date lease_inverted) = true
  /\ ~ In lease_inverted
         (get_active_leases (store_with [lease_inverted] []) house today_0303).
Proof.
  split; [reflexivity |].
  apply inverted_lease_never_active. reflexivity.
Defined.

Lemma rent_status_is_one_of_five_witness :
  get_rent_status unpaid_store house today_0303 today_0303 = Ok "Due"
  /\ In "Due" rent_status_values.
Proof.
  split; [reflexivity |].
  apply (rent_status_is_one_of_five unpaid_store house today_0303 today_0303).
  reflexivity.
Defined.

Lemma rent_status_NA_only_before_start_witness :
  get_rent_status (store_with [lease_2024] []) house today_0310 (mkdate 2023 3 10)
  = Ok "NA"
  /\ exists lease,
      In lease (get_active_leases (store_with [lease_2024] []) house today_0310)
      /\ date_ltb (mkdate 2023 3 10) (start_date lease) = true.
Proof.
  split; [reflexivity |].
  apply (proj1 rent_status_NA_only_before_start). reflexivity.
Defined.

Lemma rent_status_last_lease_decides_witness :
  get_active_leases shared_store house today_0303 = [lease_2024] ++ [lease_carol]
  /\ rent_status_of_lease shared_store today_0303 lease_2024 = Ok (Continue "Due")
  /\ lease_status shared_store today_0303 lease_carol = Ok "Paid"
  /\ get_rent_status shared_store house today_0303 today_0303
     = lease_status shared_store today_0303 lease_carol.
Proof.
  split; [reflexivity |]. split; [reflexivity |]. split; [reflexivity |].
  apply (rent_status_last_lease_decides shared_store house today_0303 today_0303
           [lease_2024] lease_carol); [reflexivity |].
  intros l [<- | []]. exists "Due". reflexivity.
Defined.


Lemma last_due_not_after_today_witness :
  valid_date (mkdate 2023 3 15) = true
  /\ 1 <= rent_due_day lease_due_31
  /\ last_due_of (mkdate 2023 3 15) lease_due_31 = Ok (mkdate 2023 2 28)
  /\ date_leb (mkdate 2023 2 28) (mkdate 2023 3 15) = true
  /\ valid_date (mkdate 2023 2 28) = true.
Proof.
  split; [reflexivity |]. split; [simpl; lia |]. split; [reflexivity |].
  apply (last_due_not_after_today (mkdate 2023 3 15) lease_due_31 (mkdate 2023 2 28));
    [reflexivity | simpl; lia | reflexivity].
Defined.



Lemma manager_role_binds_contract_witness :
  In "manager" (get_user_roles managed_store house alice today_0303)
  /\ get_activity sref_path set_in_list_order managed_store house alice
                  today_0303 today_0303
     = Raise AttributeError
  /\ (returns (get_activity sref_path set_in_list_order managed_store house alice
                            today_0303 today_0303)
      \/ get_activity sref_path set_in_list_order managed_store house alice
                      today_0303 today_0303
         = Raise AttributeError).
Proof.
  split; [simpl; auto |]. split; [reflexivity |].
  apply (manager_role_binds_contract sref_path set_in_list_order managed_store
           house alice today_0303 today_0303 today_0303).
  simpl; auto.
Defined.

Lemma feed_of_open_requests_witness :
  contracts_of_manager (request_store [door_request]) house bob = []
  /\ assigned_requests (request_store [door_request]) house bob = []
  /\ created_requests (request_store [door_request]) house bob = [door_request]
  /\ exists out,
      get_activity sref_path set_in_list_order (request_store [door_request])
                   house bob today_0310 today_0310 = Ok out
      /\ forall r, In r (created_requests (request_store [door_request]) house bob) ->
                   In (new_request_event sref_path r) out.
Proof.
  split; [reflexivity |]. split; [reflexivity |]. split; [reflexivity |].
  apply (feed_of_open_requests sref_path set_in_list_order set_in_list_order_in
           (request_store [door_request]) house bob today_0310 today_0310);
    [reflexivity |].
  intros r [<- | []]. split; reflexivity.
Defined.

Lemma feed_has_leases_of_tenant_and_owner_witness :
  In lease_2024 (leases unpaid_store)
  /\ up_id (tenant lease_2024) = up_id bob
  /\ get_activity sref_path set_in_list_order unpaid_store house bob
                  today_0310 today_0310
     = Ok [rent_due; rent_created; lease_started]
  /\ In (lease_started_event sref_path lease_2024)
        [rent_due; rent_created; lease_started].
Proof.
  split; [now left |]. split; [reflexivity |]. split; [reflexivity |].
  apply (proj1 (feed_has_leases_of_tenant_and_owner sref_path set_in_list_order
                  set_in_list_order_in unpaid_store house bob today_0310 today_0310
                  [rent_due; rent_created; lease_started] lease_2024
                  (or_introl eq_refl) eq_refl (or_introl eq_refl) eq_refl)).
Defined.

Lemma feed_has_leases_of_all_managed_properties_witness :
  lease_property lease_flat <> prop_id house
  /\ exists out,
      get_activity sref_path set_in_list_order flat_store house alice
                   today_0303 today_0303 = Ok out
      /\ In (lease_started_event sref_path lease_flat) out.
Proof.
  split; [discriminate |]. eexists. split; [reflexivity |].
  apply (feed_has_leases_of_all_managed_properties sref_path set_in_list_order
           set_in_list_order_in flat_store house alice today_0303 today_0303 _
           lease_flat contract_flat);
    [now left | now left | reflexivity | reflexivity | reflexivity].
Defined.

Lemma ended_events_are_reached_witness :
  exists out,
    get_activity sref_path set_in_list_order (store_with [lease_due_31] [])
                 house bob today_0303 today_0303 = Ok out
    /\ In (lease_ended_event sref_path lease_due_31) out
    /\ date_leb (event_day (lease_ended_event sref_path lease_due_31)) today_0303
       = true.
Proof.
  eexists. split; [reflexivity |]. split; [simpl; auto |].
  apply (ended_events_are_reached sref_path set_in_list_order set_in_list_order_in
           (store_with [lease_due_31] []) house bob today_0303 today_0303 _
           (lease_ended_event sref_path lease_due_31) eq_refl);
    [simpl; auto | left; split; reflexivity].
Defined.

Lemma invoice_events_name_other_party_witness :
  get_activity sref_path set_in_list_order unpaid_store house bob
               today_0310 today_0310
  = Ok [rent_due; rent_created; lease_started]
  /\ exists i,
      In i (invoices_of unpaid_store house bob)
      /\ (ev_person rent_due = payer i \/ ev_person rent_due = payee i)
      /\ (payer i <> payee i -> ev_person rent_due <> up_id bob).
Proof.
  split; [reflexivity |].
  apply (invoice_events_name_other_party sref_path set_in_list_order
           set_in_list_order_in unpaid_store house bob today_0310 today_0310
           [rent_due; rent_created; lease_started] rent_due eq_refl);
    [now left | reflexivity].
Defined.

Lemma message_events_need_current_tenant_witness :
  get_activity sref_path set_in_list_order message_store house alice
               today_0303 today_0303
  = Ok [note_received; lease_started]
  /\ get_tenants message_store house today_0303 <> []
  /\ ev_person note_received = up_id alice.
Proof.
  split; [reflexivity |].
  apply (message_events_need_current_tenant sref_path set_in_list_order
           set_in_list_order_in message_store house alice today_0303 today_0303
           [note_received; lease_started] note_received eq_refl);
    [now left | reflexivity].
Defined.
